(** * SO-Table-Data-Retriever: the Flask relay of [backend/main.py]

    A shallow embedding of the three routes of [backend/main.py]
    ([/api/search], [/api/order/<id>], [/health]) together with the two
    helpers they call ([get_access_token], [query_dataverse]), and the
    properties of the relay proved over it.

    Conventions of the embedding.
    - A Python [str] is a [string]; a character is a code point in
      U+0000..U+00FF.
    - A decoded JSON document (what [resp.json()] returns, what [jsonify]
      receives) is a [json] value; a Python [dict] is an association list
      in insertion order whose lookup returns the first binding of a key.
    - The network is a function from an outbound call to what [requests]
      does with it: it hands back a completed response or raises.
    - A computation threads the log of the outbound calls made so far and
      ends with [Return v] or [Raise e]. *)

From Stdlib Require Import ZArith List String Ascii Bool Lia DecimalString.
Import ListNotations.

Set Warnings "-register-all".

Open Scope Z_scope.
Open Scope string_scope.

(* ------------------------------------------------------------------ *)
(** ** Python strings *)

Module PyStr.

(** [str.isspace] on one character, for the code points below U+0100:
    TAB..CR, FS..US, SPACE, NEL and NBSP. *)
Definition isspace (c : ascii) : bool :=
  let n := N_of_ascii c in
  ((9 <=? n) && (n <=? 13) || (28 <=? n) && (n <=? 32)
   || (n =? 133) || (n =? 160))%N.

Definition is_empty (s : string) : bool :=
  match s with EmptyString => true | String _ _ => false end.

Fixpoint lstrip (s : string) : string :=
  match s with
  | EmptyString => EmptyString
  | String c s' => if isspace c then lstrip s' else s
  end.

Fixpoint rstrip (s : string) : string :=
  match s with
  | EmptyString => EmptyString
  | String c s' =>
      let r := rstrip s' in
      if isspace c && is_empty r then EmptyString else String c r
  end.

(** [s.strip()] *)
Definition strip (s : string) : string := rstrip (lstrip s).

(** [s.replace(old, new)] for a one-character [old]. *)
Fixpoint replace (s : string) (old : ascii) (new : string) : string :=
  match s with
  | EmptyString => EmptyString
  | String c s' =>
      if Ascii.eqb c old then new ++ replace s' old new
      else String c (replace s' old new)
  end.

(** [sep.join(parts)] *)
Fixpoint join (sep : string) (parts : list string) : string :=
  match parts with
  | [] => EmptyString
  | [p] => p
  | p :: rest => p ++ sep ++ join sep rest
  end.

(** Every character of [s] is whitespace ([s] may be empty). *)
Fixpoint all_space (s : string) : bool :=
  match s with
  | EmptyString => true
  | String c s' => isspace c && all_space s'
  end.

(** [needle in s] *)
Fixpoint contains (s needle : string) : bool :=
  String.prefix needle s
  || match s with
     | EmptyString => false
     | String _ s' => contains s' needle
     end.

(** [s.endswith(suffix)] *)
Definition endswith (s suffix : string) : bool :=
  let n := String.length s in
  let m := String.length suffix in
  (m <=? n)%nat && String.eqb (String.substring (n - m) m s) suffix.

(** [str(n)] for an [int]. *)
Definition of_int (n : Z) : string := NilZero.string_of_int (Z.to_int n).

(** The f-string rendering of a value that may be [None]. *)
Definition fmt (o : option string) : string :=
  match o with Some s => s | None => "None" end.

End PyStr.

(* ------------------------------------------------------------------ *)
(** ** JSON values, dictionaries, exceptions *)

Inductive json : Type :=
| JNull
| JBool (b : bool)
| JInt (n : Z)
| JFloat (literal : string)
| JStr (s : string)
| JArr (items : list json)
| JObj (fields : list (string * json)).

(** [d.get(key)] on a dictionary given as an association list. *)
Fixpoint lookup {A : Type} (d : list (string * A)) (key : string) : option A :=
  match d with
  | [] => None
  | (k, v) :: rest => if String.eqb k key then Some v else lookup rest key
  end.

(** [d.get(key, default)] *)
Definition dict_get {A : Type} (d : list (string * A)) (key : string) (default : A) : A :=
  match lookup d key with Some v => v | None => default end.

(** The field of a JSON object, [None] on anything that is not an object. *)
Definition field (j : json) (key : string) : option json :=
  match j with JObj fs => lookup fs key | _ => None end.

(** What an outbound call gets back when the exchange completes. *)
Record Response : Type := mkResponse {
  status_code : Z;
  reason : string;
  url : string;
  text : string;
  (** the outcome of decoding [text] as JSON: the value, or the decoder's
      complaint *)
  decoded : json + string
}.

(** The exceptions that can travel through the handlers. [HTTPError]
    carries the optional [response] attribute of [requests.HTTPError];
    [RequestException] stands for every other failure of [requests.post] /
    [requests.get] (connection error, timeout, invalid URL). *)
Inductive exn : Type :=
| HTTPError (msg : string) (response : option Response)
| RequestException (msg : string)
| JSONDecodeError (msg : string)
| KeyError (key : string)
| TypeError (msg : string)
| AttributeError (msg : string).

(** [str(e)] *)
Definition exn_str (e : exn) : string :=
  match e with
  | HTTPError m _ => m
  | RequestException m => m
  | JSONDecodeError m => m
  | KeyError k => "'" ++ k ++ "'"
  | TypeError m => m
  | AttributeError m => m
  end.

Definition is_HTTPError (e : exn) : bool :=
  match e with HTTPError _ _ => true | _ => false end.

(** The Python type name of a decoded JSON value, for error messages. *)
Definition type_name (j : json) : string :=
  match j with
  | JNull => "NoneType"
  | JBool _ => "bool"
  | JInt _ => "int"
  | JFloat _ => "float"
  | JStr _ => "str"
  | JArr _ => "list"
  | JObj _ => "dict"
  end.

(* ------------------------------------------------------------------ *)
(** ** Outbound calls and the computation monad *)

Inductive Call : Type :=
| POST (target : string) (data : list (string * option string)) (timeout : Z)
| GET (target : string) (headers : list (string * string)) (timeout : Z).

(** What [requests] does with a call. *)
Inductive NetReply : Type :=
| Completed (r : Response)
| Failed (msg : string).

Inductive outcome (A : Type) : Type :=
| Return (a : A)
| Raise (e : exn).
Arguments Return {A} a.
Arguments Raise {A} e.

(** A computation: from the log of calls made so far to an outcome and the
    extended log (oldest call first). *)
Definition M (A : Type) : Type := list Call -> outcome A * list Call.

Definition ret {A : Type} (a : A) : M A := fun tr => (Return a, tr).

Definition raise {A : Type} (e : exn) : M A := fun tr => (Raise e, tr).

Definition bind {A B : Type} (m : M A) (k : A -> M B) : M B :=
  fun tr =>
    match m tr with
    | (Return a, tr') => k a tr'
    | (Raise e, tr') => (Raise e, tr')
    end.

(** [try: body  except ... as e: handler e] *)
Definition try_except {A : Type} (body : M A) (handler : exn -> M A) : M A :=
  fun tr =>
    match body tr with
    | (Return a, tr') => (Return a, tr')
    | (Raise e, tr') => handler e tr'
    end.

Declare Scope py_scope.
Delimit Scope py_scope with py.
Notation "x <- m ;; k" := (bind m (fun x => k))
  (at level 100, m at next level, right associativity) : py_scope.
Notation "m ;;; k" := (bind m (fun _ => k))
  (at level 100, right associativity) : py_scope.
Open Scope py_scope.

(** The reply of a Flask view: [jsonify(body)], possibly paired with a
    status. *)
Record HttpResponse : Type := mkHttp {
  status : Z;
  body : json
}.

Definition jsonify (j : json) : HttpResponse := mkHttp 200 j.

Definition with_status (r : HttpResponse) (code : Z) : HttpResponse :=
  mkHttp code (body r).

(* ------------------------------------------------------------------ *)
(** ** The [requests] and decoded-JSON operations the relay uses *)

Module Requests.

(** [resp.raise_for_status()]: an [HTTPError] carrying the response for a
    4xx or a 5xx status, nothing otherwise. *)
Definition http_error_msg (resp : Response) : option string :=
  let code := status_code resp in
  if ((400 <=? code) && (code <? 500))%Z then
    Some (PyStr.of_int code ++ " Client Error: " ++ reason resp
            ++ " for url: " ++ url resp)
  else if ((500 <=? code) && (code <? 600))%Z then
    Some (PyStr.of_int code ++ " Server Error: " ++ reason resp
            ++ " for url: " ++ url resp)
  else None.

Definition raise_for_status (resp : Response) : M unit :=
  match http_error_msg resp with
  | Some msg => raise (HTTPError msg (Some resp))
  | None => ret tt
  end.

(** [resp.json()] *)
Definition json_of (resp : Response) : M json :=
  match decoded resp with
  | inl j => ret j
  | inr msg => raise (JSONDecodeError msg)
  end.

(** [e.response.text] *)
Definition response_text (response : option Response) : M string :=
  match response with
  | Some r => ret (text r)
  | None => raise (AttributeError "'NoneType' object has no attribute 'text'")
  end.

End Requests.

Module PyObj.

(** [j[key]] for a string key *)
Definition subscript (j : json) (key : string) : M json :=
  match j with
  | JObj fs =>
      match lookup fs key with
      | Some v => ret v
      | None => raise (KeyError key)
      end
  | JArr _ => raise (TypeError "list indices must be integers or slices, not str")
  | JStr _ => raise (TypeError "string indices must be integers, not 'str'")
  | _ => raise (TypeError ("'" ++ type_name j ++ "' object is not subscriptable"))
  end.

(** [j.get(key, default)] *)
Definition get (j : json) (key : string) (default : json) : M json :=
  match j with
  | JObj fs => ret (dict_get fs key default)
  | _ => raise (AttributeError ("'" ++ type_name j ++ "' object has no attribute 'get'"))
  end.

(** [len(j)] *)
Definition len (j : json) : M Z :=
  match j with
  | JArr items => ret (Z.of_nat (List.length items))
  | JObj fs => ret (Z.of_nat (List.length fs))
  | JStr s => ret (Z.of_nat (String.length s))
  | _ => raise (TypeError ("object of type '" ++ type_name j ++ "' has no len()"))
  end.

(** [d[key]] on a dictionary literal *)
Definition index (d : list (string * string)) (key : string) : M string :=
  match lookup d key with
  | Some v => ret v
  | None => raise (KeyError key)
  end.

End PyObj.

(* ------------------------------------------------------------------ *)
(** ** backend/main.py *)

(** The module-level configuration, read once from the environment.
    [os.getenv] gives [None] for a variable that is not set; [TABLE_NAME]
    has a default. *)
Record Config : Type := mkConfig {
  TENANT_ID : option string;
  CLIENT_ID : option string;
  CLIENT_SECRET : option string;
  DATAVERSE_URL : option string;
  TABLE_NAME : string
}.

(** [os.getenv("TABLE_NAME", "cr399_tables")] *)
Definition getenv_TABLE_NAME (env : option string) : string :=
  match env with Some v => v | None => "cr399_tables" end.

Module Backend.

(** The columns joined into [SELECT_COLS], in source order. *)
Definition SELECT_COLS_list : list string :=
  [ "cr399_cr1e1_0003ausalesordersid";
    "cr399_cr1e1_no";
    "cr399_cr1e1_itemno";
    "cr399_cr1e1_customername";
    "cr399_cr1e1_customerno";
    "cr399_cr1e1_bincode";
    "cr399_cr1e1_externaldocumentno";
    "cr399_cr1e1_locationcode";
    "cr399_cr1e1_orderdate";
    "cr399_cr1e1_quantity";
    "cr399_cr1e1_saleinvoiceno";
    "cr399_cr1e1_salespersoncode";
    "cr399_cr1e1_shiptoaddress";
    "cr399_cr1e1_shiptoaddress2";
    "cr399_cr1e1_shiptocity";
    "cr399_cr1e1_shiptocountry";
    "cr399_cr1e1_shiptocountryregion";
    "cr399_cr1e1_shiptoname";
    "cr399_cr1e1_shiptophoneno";
    "cr399_cr1e1_shiptopostcode";
    "cr399_cr1e1_status";
    "cr399_cr1e1_totalinclvataud";
    "cr399_cr1e1_totalvataud";
    "cr399_cr1e1_trackingnumber";
    "cr399_cr1e1_type";
    "cr399_cr1e1_unitpriceincvat";
    "cr399_cr1e1_yourreference";
    "cr399_cr1e1_starshipitshipmentdate";
    "cr399_cr1e1_carriername";
    "cr399_cr1e1_carrierservice" ].

Definition SELECT_COLS : string := PyStr.join "," SELECT_COLS_list.

(** [request.args.get(key, default)]: the first value sent for [key]. *)
Definition args_get (args : list (string * string)) (key default : string) : string :=
  dict_get args key default.

(** The dictionary literal [filter_map] of [search]. *)
Definition filter_map (safe_query : string) : list (string * string) :=
  [ ("name",      "contains(cr399_cr1e1_no,'" ++ safe_query ++ "')");
    ("external",  "contains(cr399_cr1e1_externaldocumentno,'" ++ safe_query ++ "')");
    ("reference", "contains(cr399_cr1e1_yourreference,'" ++ safe_query ++ "')") ].

(** Lines 96-103 of [search]: from the trimmed query and the [by]
    argument to [filter_expr]. *)
Definition build_filter (query search_by : string) : M string :=
  let safe_query := PyStr.replace query "'" "''" in
  let fm := filter_map safe_query in
  fallback <- PyObj.index fm "name" ;;
  ret (dict_get fm search_by fallback).

(** The filter expression [search] hands to [query_dataverse] for the
    given request arguments; [None] when it answers before building one. *)
Definition search_filter_expr (args : list (string * string)) : option string :=
  let query := PyStr.strip (args_get args "q" EmptyString) in
  let search_by := args_get args "by" "name" in
  if PyStr.is_empty query then None
  else match build_filter query search_by [] with
       | (Return filter_expr, _) => Some filter_expr
       | (Raise _, _) => None
       end.

(** The header dictionary both data calls send. *)
Definition odata_headers (bearer : string) : list (string * string) :=
  [ ("Authorization", "Bearer " ++ bearer);
    ("Accept", "application/json");
    ("OData-MaxVersion", "4.0");
    ("OData-Version", "4.0");
    ("Prefer", "odata.include-annotations=OData.Community.Display.V1.FormattedValue") ].

Section Relay.

(** The process configuration, the network, and Python's [str()] on a
    decoded JSON value as the f-string [f"Bearer {token}"] applies it (on a
    string it is the string itself). *)
Variable cfg : Config.
Variable net : Call -> NetReply.
Variable str_of : json -> string.

(** One outbound call: logged, then answered by the network. *)
Definition perform (c : Call) : M Response :=
  fun tr =>
    match net c with
    | Completed r => (Return r, (tr ++ [c])%list)
    | Failed msg => (Raise (RequestException msg), (tr ++ [c])%list)
    end.

Definition token_call : Call :=
  POST ("https://login.microsoftonline.com/" ++ PyStr.fmt (TENANT_ID cfg)
          ++ "/oauth2/v2.0/token")
       [ ("grant_type", Some "client_credentials");
         ("client_id", CLIENT_ID cfg);
         ("client_secret", CLIENT_SECRET cfg);
         ("scope", Some (PyStr.fmt (DATAVERSE_URL cfg) ++ "/.default")) ]
       15.

Definition get_access_token : M json :=
  resp <- perform token_call ;;
  Requests.raise_for_status resp ;;;
  j <- Requests.json_of resp ;;
  PyObj.subscript j "access_token".

Definition query_endpoint (filter_expr select_cols : string) : string :=
  PyStr.fmt (DATAVERSE_URL cfg) ++ "/api/data/v9.2/" ++ TABLE_NAME cfg
    ++ "?$select=" ++ select_cols ++ "&$filter=" ++ filter_expr ++ "&$top=50".

Definition query_dataverse (filter_expr select_cols : string) : M json :=
  token <- get_access_token ;;
  let headers := odata_headers (str_of token) in
  let endpoint := query_endpoint filter_expr select_cols in
  resp <- perform (GET endpoint headers 20) ;;
  Requests.raise_for_status resp ;;;
  j <- Requests.json_of resp ;;
  PyObj.get j "value" (JArr []).

(** The two [except] clauses shared by [search] and [get_order]. *)
Definition on_error (e : exn) : M HttpResponse :=
  match e with
  | HTTPError _ response =>
      detail <- Requests.response_text response ;;
      ret (with_status
             (jsonify (JObj [("error", JStr (exn_str e)); ("detail", JStr detail)]))
             502)
  | _ =>
      ret (with_status (jsonify (JObj [("error", JStr (exn_str e))])) 500)
  end.

(** The [try] block of [search]. *)
Definition search_try (filter_expr : string) : M HttpResponse :=
  records <- query_dataverse filter_expr SELECT_COLS ;;
  count <- PyObj.len records ;;
  ret (jsonify (JObj [("data", records); ("count", JInt count)])).

Definition search (args : list (string * string)) : M HttpResponse :=
  let query := PyStr.strip (args_get args "q" EmptyString) in
  let search_by := args_get args "by" "name" in
  if PyStr.is_empty query then
    ret (with_status
           (jsonify (JObj [("error", JStr "Query parameter 'q' is required.")]))
           400)
  else
    filter_expr <- build_filter query search_by ;;
    try_except (search_try filter_expr) on_error.

Definition order_endpoint (order_id : string) : string :=
  PyStr.fmt (DATAVERSE_URL cfg) ++ "/api/data/v9.2/" ++ TABLE_NAME cfg
    ++ "(" ++ order_id ++ ")?$select=" ++ SELECT_COLS.

(** The [try] block of [get_order]. *)
Definition get_order_try (order_id : string) : M HttpResponse :=
  token <- get_access_token ;;
  let headers := odata_headers (str_of token) in
  let target := order_endpoint order_id in
  resp <- perform (GET target headers 20) ;;
  Requests.raise_for_status resp ;;;
  j <- Requests.json_of resp ;;
  ret (jsonify j).

Definition get_order (order_id : string) : M HttpResponse :=
  try_except (get_order_try order_id) on_error.

Definition health : M HttpResponse :=
  ret (jsonify (JObj [("status", JStr "ok")])).

End Relay.

End Backend.

(* ------------------------------------------------------------------ *)
(** ** Vocabulary of the specification *)

Module Spec.

(** The clause the specification writes [contains(field,'literal')]. *)
Definition contains_clause (field literal : string) : string :=
  "contains(" ++ field ++ ",'" ++ literal ++ "')".

(** The column each recognised discriminator is mapped to: order number,
    external document number, customer reference. *)
Definition discriminator_field : list (string * string) :=
  [ ("name", "cr399_cr1e1_no");
    ("external", "cr399_cr1e1_externaldocumentno");
    ("reference", "cr399_cr1e1_yourreference") ].

(** The query with every single quote doubled. *)
Definition escaped (q : string) : string := PyStr.replace q "'" "''".

(** A status for which the status check raises: 4xx or 5xx. *)
Definition is_error_status (code : Z) : bool :=
  ((400 <=? code) && (code <? 600))%Z.

(** A status in the 2xx range. *)
Definition is_2xx (code : Z) : bool :=
  ((200 <=? code) && (code <? 300))%Z.

(** The reply of [search] to a request it does not accept. *)
Definition bad_request : HttpResponse :=
  mkHttp 400 (JObj [("error", JStr "Query parameter 'q' is required.")]).

(** The value of the request parameter [q] is missing, empty or made of
    whitespace only. *)
Definition blank_q (args : list (string * string)) : Prop :=
  match lookup args "q" with
  | None => True
  | Some v => PyStr.all_space v = true
  end.

(** The request parameter [by] is missing or is none of the recognised
    discriminators. *)
Definition unrecognised_by (args : list (string * string)) : Prop :=
  forall b, lookup args "by" = Some b -> lookup discriminator_field b = None.

(** The token request completes, the status check lets it through, and the
    JSON body is an object whose [access_token] is [tok]. *)
Definition token_granted_by (cfg : Config) (net : Call -> NetReply) (tok : json) : Prop :=
  exists r j,
    net (Backend.token_call cfg) = Completed r /\
    is_error_status (status_code r) = false /\
    decoded r = inl j /\
    field j "access_token" = Some tok.

(** The call [c] completes with the response [r], of status 4xx or 5xx. *)
Definition rejected_by (net : Call -> NetReply) (c : Call) (r : Response) : Prop :=
  net c = Completed r /\ is_error_status (status_code r) = true.

(** The call [c] fails in another way than by its status, raising [e]: the
    exchange does not complete (network failure, timeout), or it completes
    with a status the check lets through and a body that is not JSON. *)
Definition fails_otherwise (net : Call -> NetReply) (c : Call) (e : exn) : Prop :=
  (exists msg, net c = Failed msg /\ e = RequestException msg) \/
  (exists r msg,
      net c = Completed r /\ is_error_status (status_code r) = false /\
      decoded r = inr msg /\ e = JSONDecodeError msg).

(** The data request to [target], as sent once the token [tok] is held. *)
Definition data_call (str_of : json -> string) (target : string) (tok : json) : Call :=
  GET target (Backend.odata_headers (str_of tok)) 20.

(** Either upstream call, made for a request whose data request goes to
    [target], satisfies [P]: the token request does, or the token is
    granted and the data request does. *)
Definition either_call (cfg : Config) (net : Call -> NetReply) (str_of : json -> string)
    (target : string) (P : Call -> Prop) : Prop :=
  P (Backend.token_call cfg) \/
  exists tok, token_granted_by cfg net tok /\ P (data_call str_of target tok).

(** Every single quote of [s] is immediately followed by a second one that
    pairs with it: read from the left, a quote never stands alone, so [s]
    put between two quotes is one literal that ends at the closing quote. *)
Fixpoint quotes_doubled (s : string) : bool :=
  match s with
  | EmptyString => true
  | String c s' =>
      if Ascii.eqb c "'" then
        match s' with
        | EmptyString => false
        | String c' s'' => Ascii.eqb c' "'" && quotes_doubled s''
        end
      else quotes_doubled s'
  end.

(** The decoded values [len] accepts: arrays, objects and strings. *)
Definition sized (v : json) : bool :=
  match v with
  | JArr _ | JObj _ | JStr _ => true
  | _ => false
  end.

Definition is_object (j : json) : bool :=
  match j with JObj _ => true | _ => false end.

(** The columns a filter can be about. *)
Definition filter_columns : list string :=
  [ "cr399_cr1e1_no"; "cr399_cr1e1_externaldocumentno"; "cr399_cr1e1_yourreference" ].

End Spec.

(* ------------------------------------------------------------------ *)
(** ** Example upstreams *)

Module Demo.

Definition cfg : Config :=
  mkConfig (Some "contoso-tenant") (Some "relay-app") (Some "relay-secret")
           (Some "https://contoso.crm.dynamics.com") (getenv_TABLE_NAME None).

(** [str()] on the tokens of the examples, which are strings; scalars are
    rendered as Python does, containers (never a token here) by their type
    name only. *)
Definition str_of (j : json) : string :=
  match j with
  | JStr s => s
  | JNull => "None"
  | JBool true => "True"
  | JBool false => "False"
  | JInt n => PyStr.of_int n
  | JFloat l => l
  | _ => type_name j
  end.

Definition dq : string := String (ascii_of_nat 34) EmptyString.

(** The compact JSON text of an example body (the strings of the examples
    need no escape). *)
Fixpoint dumps (j : json) : string :=
  match j with
  | JNull => "null"
  | JBool true => "true"
  | JBool false => "false"
  | JInt n => PyStr.of_int n
  | JFloat l => l
  | JStr s => dq ++ s ++ dq
  | JArr items =>
      "[" ++ (fix go (l : list json) : string :=
                match l with
                | [] => EmptyString
                | [x] => dumps x
                | x :: r => dumps x ++ "," ++ go r
                end) items ++ "]"
  | JObj fs =>
      "{" ++ (fix go (l : list (string * json)) : string :=
                match l with
                | [] => EmptyString
                | [(k, v)] => dq ++ k ++ dq ++ ":" ++ dumps v
                | (k, v) :: r => dq ++ k ++ dq ++ ":" ++ dumps v ++ "," ++ go r
                end) fs ++ "}"
  end.

(** A completed exchange whose body is the JSON document [j]. *)
Definition json_response (code : Z) (phrase target : string) (j : json) : Response :=
  mkResponse code phrase target (dumps j) (inl j).

(** A completed exchange whose body is not JSON. *)
Definition plain_response (code : Z) (phrase target body_text : string) : Response :=
  mkResponse code phrase target body_text
             (inr "Expecting value: line 1 column 1 (char 0)").

(** An upstream that answers the token request with [auth] and every data
    request with [data]. *)
Definition upstream (auth data : NetReply) : Call -> NetReply :=
  fun c =>
    match c with
    | POST _ _ _ => auth
    | GET _ _ _ => data
    end.

Definition login_url : string :=
  "https://login.microsoftonline.com/contoso-tenant/oauth2/v2.0/token".

Definition table_url : string :=
  "https://contoso.crm.dynamics.com/api/data/v9.2/cr399_tables".

Definition token_granted : NetReply :=
  Completed (json_response 200 "OK" login_url
               (JObj [("token_type", JStr "Bearer"); ("access_token", JStr "tok-1")])).

Definition token_denied : Response :=
  json_response 401 "Unauthorized" login_url
    (JObj [("error", JStr "invalid_client")]).

Definition token_not_modified : Response :=
  plain_response 304 "Not Modified" login_url EmptyString.

Definition row1 : json :=
  JObj [("cr399_cr1e1_no", JStr "SO-1001");
        ("cr399_cr1e1_yourreference", JStr "O'Brien")].

Definition row2 : json :=
  JObj [("cr399_cr1e1_no", JStr "SO-1002");
        ("cr399_cr1e1_yourreference", JStr "O'Brien & Sons")].

Definition rows (l : list json) : NetReply :=
  Completed (json_response 200 "OK" table_url (JObj [("value", JArr l)])).

Definition table_missing : Response :=
  json_response 404 "Not Found" table_url
    (JObj [("error", JStr "Resource not found for the segment")]).

Definition read_timeout : NetReply :=
  Failed "HTTPSConnectionPool(host='contoso.crm.dynamics.com', port=443): Read timed out. (read timeout=20)".

Definition html_page : NetReply :=
  Completed (plain_response 200 "OK" table_url "<html>maintenance</html>").

(** The upstreams of the examples. *)
Definition net_two_rows : Call -> NetReply := upstream token_granted (rows [row1; row2]).

Definition net_token_denied : Call -> NetReply :=
  upstream (Completed token_denied) (rows []).

Definition net_token_not_modified : Call -> NetReply :=
  upstream (Completed token_not_modified) (rows []).

Definition net_table_missing : Call -> NetReply :=
  upstream token_granted (Completed table_missing).

Definition net_read_timeout : Call -> NetReply := upstream token_granted read_timeout.

(** An upstream that answers with 51 rows whatever [$top] asks for. *)
Definition net_51_rows : Call -> NetReply :=
  upstream token_granted (rows (List.repeat (JObj []) 51)).

(** A token endpoint whose JSON answer has no [access_token]. *)
Definition net_token_without_key : Call -> NetReply :=
  upstream (Completed (json_response 200 "OK" login_url
                         (JObj [("token_type", JStr "Bearer")])))
           (rows [row1; row2]).

(** A table that answers with a JSON object and no [value]. *)
Definition net_no_value : Call -> NetReply :=
  upstream token_granted
           (Completed (json_response 200 "OK" table_url
                         (JObj [("@odata.context", JStr "cr399_tables")]))).

(** A table that answers with [value: null]. *)
Definition net_null_value : Call -> NetReply :=
  upstream token_granted
           (Completed (json_response 200 "OK" table_url (JObj [("value", JNull)]))).

(** A table that answers one order as a flat object. *)
Definition net_one_order : Call -> NetReply :=
  upstream token_granted (Completed (json_response 200 "OK" table_url row1)).

(** A table that answers with a JSON array instead of an object. *)
Definition net_array_body : Call -> NetReply :=
  upstream token_granted (Completed (json_response 200 "OK" table_url (JArr [row1]))).

Definition not_found_msg : string :=
  "404 Client Error: Not Found for url: https://contoso.crm.dynamics.com/api/data/v9.2/cr399_tables".

Definition obrien_args : list (string * string) :=
  [("q", "O'Brien"); ("by", "reference")].

Definition obrien_filter : string := "contains(cr399_cr1e1_yourreference,'O''Brien')".

End Demo.

(* ------------------------------------------------------------------ *)
(** ** Facts about the string operations *)

Open Scope Z_scope.

Section StringFacts.

Lemma lstrip_head (s : string) :
  PyStr.lstrip s = EmptyString \/
  exists c r, PyStr.lstrip s = String c r /\ PyStr.isspace c = false.
Proof.
  induction s as [|c s IH]; simpl.
  - now left.
  - destruct (PyStr.isspace c) eqn:Hc.
    + exact IH.
    + right. now exists c, s.
Qed.

Lemma lstrip_all_space (s : string) :
  PyStr.is_empty (PyStr.lstrip s) = PyStr.all_space s.
Proof.
  induction s as [|c s IH]; simpl; [reflexivity|].
  destruct (PyStr.isspace c); simpl; [exact IH | reflexivity].
Qed.

Lemma rstrip_head (c : ascii) (r : string) :
  PyStr.isspace c = false -> PyStr.is_empty (PyStr.rstrip (String c r)) = false.
Proof.
  intros Hc. simpl. rewrite Hc. reflexivity.
Qed.

(** [strip] leaves nothing exactly when there was only whitespace. *)
Lemma strip_empty_iff_all_space (s : string) :
  PyStr.is_empty (PyStr.strip s) = PyStr.all_space s.
Proof.
  unfold PyStr.strip. rewrite <- lstrip_all_space.
  destruct (lstrip_head s) as [E | (c & r & E & Hc)]; rewrite E.
  - reflexivity.
  - rewrite rstrip_head by exact Hc. reflexivity.
Qed.

Lemma is_empty_true (s : string) : PyStr.is_empty s = true <-> s = EmptyString.
Proof.
  destruct s; simpl; split; intros H; congruence.
Qed.

Lemma is_empty_false (s : string) : PyStr.is_empty s = false <-> s <> EmptyString.
Proof.
  destruct s; simpl; split; intros H; congruence.
Qed.

Lemma substring_all (s : string) : String.substring 0 (String.length s) s = s.
Proof.
  induction s as [|c s IH]; simpl; [reflexivity | now rewrite IH].
Qed.

Lemma substring_skip (a b : string) :
  String.substring (String.length a) (String.length b) (a ++ b) = b.
Proof.
  induction a as [|c a IH]; simpl; [apply substring_all | exact IH].
Qed.

Lemma length_append (a b : string) :
  String.length (a ++ b) = (String.length a + String.length b)%nat.
Proof.
  induction a as [|c a IH]; simpl; [reflexivity | now rewrite IH].
Qed.

Lemma endswith_append (a b : string) : PyStr.endswith (a ++ b) b = true.
Proof.
  unfold PyStr.endswith. rewrite length_append.
  replace (String.length a + String.length b - String.length b)%nat
    with (String.length a) by lia.
  rewrite substring_skip, String.eqb_refl, andb_true_r.
  apply Nat.leb_le. lia.
Qed.

Lemma append_assoc (a b c : string) : (a ++ b) ++ c = a ++ (b ++ c).
Proof.
  induction a as [|x a IH]; simpl; [reflexivity | now rewrite IH].
Qed.

Lemma lstrip_app_space (a s : string) :
  PyStr.all_space a = true -> PyStr.lstrip (a ++ s) = PyStr.lstrip s.
Proof.
  induction a as [|c a IH]; simpl; [reflexivity|].
  intros H. apply andb_prop in H. destruct H as [Hc Ha].
  rewrite Hc. now apply IH.
Qed.

Lemma rstrip_all_space (b : string) :
  PyStr.all_space b = true -> PyStr.rstrip b = EmptyString.
Proof.
  induction b as [|c b IH]; simpl; [reflexivity|].
  intros H. apply andb_prop in H. destruct H as [Hc Hb].
  rewrite (IH Hb), Hc. reflexivity.
Qed.

Lemma rstrip_app_space (s b : string) :
  PyStr.all_space b = true -> PyStr.rstrip (s ++ b) = PyStr.rstrip s.
Proof.
  intros Hb. induction s as [|c s IH]; simpl.
  - now apply rstrip_all_space.
  - now rewrite IH.
Qed.

Lemma strip_app_space (s b : string) :
  PyStr.all_space b = true -> PyStr.strip (s ++ b) = PyStr.strip s.
Proof.
  intros Hb. unfold PyStr.strip. induction s as [|c s IH]; simpl.
  - assert (E : PyStr.lstrip b = EmptyString).
    { apply is_empty_true. now rewrite lstrip_all_space. }
    now rewrite E.
  - destruct (PyStr.isspace c); [exact IH|].
    change (String c (s ++ b)) with (String c s ++ b).
    now apply rstrip_app_space.
Qed.

(** Whitespace around a string does not survive [strip]. *)
Lemma strip_padded (a s b : string) :
  PyStr.all_space a = true -> PyStr.all_space b = true ->
  PyStr.strip (a ++ s ++ b) = PyStr.strip s.
Proof.
  intros Ha Hb. unfold PyStr.strip. rewrite lstrip_app_space by exact Ha.
  now apply strip_app_space.
Qed.

Lemma append_inj_l (a x y : string) : a ++ x = a ++ y -> x = y.
Proof.
  induction a as [|c a IH]; simpl; [trivial|].
  intros [= H]. now apply IH.
Qed.

Lemma append_inj_r (a b c : string) : a ++ c = b ++ c -> a = b.
Proof.
  revert b. induction a as [|x a IH]; intros [|y b] H; simpl in H.
  - reflexivity.
  - apply (f_equal String.length) in H. simpl in H. rewrite length_append in H. lia.
  - apply (f_equal String.length) in H. simpl in H. rewrite length_append in H. lia.
  - injection H as -> H. f_equal. now apply IH.
Qed.

Lemma replace_quote_injective (q1 q2 : string) :
  PyStr.replace q1 "'" "''" = PyStr.replace q2 "'" "''" -> q1 = q2.
Proof.
  revert q2. induction q1 as [|c1 q1 IH]; intros [|c2 q2]; simpl.
  - reflexivity.
  - destruct (Ascii.eqb c2 "'"); discriminate.
  - destruct (Ascii.eqb c1 "'"); discriminate.
  - destruct (Ascii.eqb_spec c1 "'") as [-> | N1],
             (Ascii.eqb_spec c2 "'") as [-> | N2]; simpl.
    + intros [= H]. f_equal. now apply IH.
    + intros [= E _]. now subst.
    + intros [= E _]. now subst.
    + intros [= -> H]. f_equal. now apply IH.
Qed.

Lemma replace_quote_doubled (q : string) :
  Spec.quotes_doubled (PyStr.replace q "'" "''") = true.
Proof.
  induction q as [|c q IH]; simpl; [reflexivity|].
  destruct (Ascii.eqb c "'") eqn:E; simpl.
  - exact IH.
  - now rewrite E.
Qed.

Lemma replace_without_quote (s : string) :
  PyStr.contains s "'" = false -> PyStr.replace s "'" "''" = s.
Proof.
  induction s as [|c s IH]; [reflexivity|].
  cbn [PyStr.contains PyStr.replace String.prefix].
  destruct (ascii_dec "'" c) as [E | N].
  - intros H. destruct s; discriminate H.
  - intros H. simpl in H. destruct (Ascii.eqb_spec c "'") as [-> | _]; [now elim N|].
    now rewrite IH.
Qed.

End StringFacts.

(* ------------------------------------------------------------------ *)
(** ** The filter expression of [/api/search] *)

Section FilterFacts.

Lemma build_filter_eq (query search_by : string) (tr : list Call) :
  Backend.build_filter query search_by tr =
  (Return (dict_get (Backend.filter_map (Spec.escaped query)) search_by
             (Spec.contains_clause "cr399_cr1e1_no" (Spec.escaped query))),
   tr).
Proof. reflexivity. Qed.

(** The request arguments decide the filter expression: none when the
    trimmed [q] is empty, otherwise the entry of [filter_map] for [by],
    the [name] entry when [by] has none. *)
Lemma search_filter_expr_eq (args : list (string * string)) :
  Backend.search_filter_expr args =
  let query := PyStr.strip (Backend.args_get args "q" EmptyString) in
  if PyStr.is_empty query then None
  else Some (dict_get (Backend.filter_map (Spec.escaped query))
               (Backend.args_get args "by" "name")
               (Spec.contains_clause "cr399_cr1e1_no" (Spec.escaped query))).
Proof.
  unfold Backend.search_filter_expr. cbv zeta.
  destruct (PyStr.is_empty _); [reflexivity|].
  now rewrite build_filter_eq.
Qed.

(** On a recognised discriminator the entry of [filter_map] is the clause
    over the column the discriminator is mapped to. *)
Lemma filter_map_recognised (sq b column fallback : string) :
  lookup Spec.discriminator_field b = Some column ->
  dict_get (Backend.filter_map sq) b fallback = Spec.contains_clause column sq.
Proof.
  unfold dict_get, Spec.discriminator_field, Backend.filter_map.
  cbn [lookup].
  destruct (String.eqb "name" b); [intros [= E]; now rewrite <- E|].
  destruct (String.eqb "external" b); [intros [= E]; now rewrite <- E|].
  destruct (String.eqb "reference" b); [intros [= E]; now rewrite <- E|].
  discriminate.
Qed.

Lemma filter_map_unrecognised (sq b fallback : string) :
  lookup Spec.discriminator_field b = None ->
  dict_get (Backend.filter_map sq) b fallback = fallback.
Proof.
  unfold dict_get, Spec.discriminator_field, Backend.filter_map.
  cbn [lookup].
  destruct (String.eqb "name" b); [discriminate|].
  destruct (String.eqb "external" b); [discriminate|].
  destruct (String.eqb "reference" b); [discriminate|].
  reflexivity.
Qed.

End FilterFacts.

(* ------------------------------------------------------------------ *)
(** ** How the handlers run *)

Section Routes.

Variable cfg : Config.
Variable net : Call -> NetReply.
Variable str_of : json -> string.

Local Abbreviation search := (Backend.search cfg net str_of).
Local Abbreviation search_try := (Backend.search_try cfg net str_of).
Local Abbreviation get_order := (Backend.get_order cfg net str_of).
Local Abbreviation get_order_try := (Backend.get_order_try cfg net str_of).
Local Abbreviation on_error := Backend.on_error.

(** [search] either answers 400 on the spot or runs its [try] block on the
    filter expression of the request. *)
Lemma search_eq (args : list (string * string)) (tr : list Call) :
  search args tr =
  match Backend.search_filter_expr args with
  | None => (Return Spec.bad_request, tr)
  | Some filter_expr => try_except (search_try filter_expr) on_error tr
  end.
Proof.
  unfold Backend.search, Backend.search_filter_expr. cbv zeta.
  destruct (PyStr.is_empty _); [reflexivity|].
  unfold bind. now rewrite build_filter_eq.
Qed.

Local Abbreviation tc := (Backend.token_call cfg).

Lemma http_error_msg_none (r : Response) :
  Requests.http_error_msg r = None <-> Spec.is_error_status (status_code r) = false.
Proof.
  unfold Requests.http_error_msg, Spec.is_error_status. cbv zeta.
  destruct (400 <=? status_code r) eqn:H4, (status_code r <? 500) eqn:H5,
           (500 <=? status_code r) eqn:H6, (status_code r <? 600) eqn:H7;
    simpl; split; intros H; try congruence; lia.
Qed.

Lemma http_error_msg_some (r : Response) :
  Spec.is_error_status (status_code r) = true ->
  exists msg, Requests.http_error_msg r = Some msg.
Proof.
  intros H. destruct (Requests.http_error_msg r) as [m|] eqn:E.
  - now exists m.
  - apply http_error_msg_none in E. congruence.
Qed.

(** One call followed by the status check and the decoding of the body, as
    both helpers and [get_order] write it. *)
Lemma call_check_decode_eq {A : Type} (c : Call) (k : json -> M A) (tr : list Call) :
  (resp <- Backend.perform net c ;;
   Requests.raise_for_status resp ;;;
   j <- Requests.json_of resp ;;
   k j) tr =
  match net c with
  | Failed msg => (Raise (RequestException msg), (tr ++ [c])%list)
  | Completed r =>
      match Requests.http_error_msg r with
      | Some msg => (Raise (HTTPError msg (Some r)), (tr ++ [c])%list)
      | None =>
          match decoded r with
          | inr msg => (Raise (JSONDecodeError msg), (tr ++ [c])%list)
          | inl j => k j (tr ++ [c])%list
          end
      end
  end.
Proof.
  unfold bind, Backend.perform, Requests.raise_for_status, Requests.json_of.
  destruct (net c) as [r|msg]; [|reflexivity].
  destruct (Requests.http_error_msg r); [reflexivity|].
  unfold ret, raise. destruct (decoded r); reflexivity.
Qed.

Lemma get_access_token_eq (tr : list Call) :
  Backend.get_access_token cfg net tr =
  match net tc with
  | Failed msg => (Raise (RequestException msg), (tr ++ [tc])%list)
  | Completed r =>
      match Requests.http_error_msg r with
      | Some msg => (Raise (HTTPError msg (Some r)), (tr ++ [tc])%list)
      | None =>
          match decoded r with
          | inr msg => (Raise (JSONDecodeError msg), (tr ++ [tc])%list)
          | inl j => PyObj.subscript j "access_token" (tr ++ [tc])%list
          end
      end
  end.
Proof. apply call_check_decode_eq. Qed.

Lemma get_access_token_granted (tok : json) (tr : list Call) :
  Spec.token_granted_by cfg net tok ->
  Backend.get_access_token cfg net tr = (Return tok, (tr ++ [tc])%list).
Proof.
  intros (r & j & Hnet & Hst & Hdec & Hfield).
  rewrite get_access_token_eq, Hnet.
  apply http_error_msg_none in Hst. rewrite Hst, Hdec.
  destruct j; try discriminate. simpl in Hfield. simpl. now rewrite Hfield.
Qed.

Lemma get_access_token_rejected (r : Response) (tr : list Call) :
  Spec.rejected_by net tc r ->
  exists msg, Requests.http_error_msg r = Some msg /\
    Backend.get_access_token cfg net tr = (Raise (HTTPError msg (Some r)), (tr ++ [tc])%list).
Proof.
  intros [Hnet Hst]. destruct (http_error_msg_some r Hst) as [msg E].
  exists msg. split; [exact E|]. now rewrite get_access_token_eq, Hnet, E.
Qed.

Lemma get_access_token_fails (e : exn) (tr : list Call) :
  Spec.fails_otherwise net tc e ->
  Backend.get_access_token cfg net tr = (Raise e, (tr ++ [tc])%list).
Proof.
  rewrite get_access_token_eq.
  intros [(msg & Hnet & ->) | (r & msg & Hnet & Hst & Hdec & ->)]; rewrite Hnet.
  - reflexivity.
  - apply http_error_msg_none in Hst. now rewrite Hst, Hdec.
Qed.

Lemma bind_eq {A B : Type} (m : M A) (k : A -> M B) (tr : list Call) :
  bind m k tr =
  match m tr with
  | (Return a, tr') => k a tr'
  | (Raise e, tr') => (Raise e, tr')
  end.
Proof. reflexivity. Qed.

(** The token fetch followed by one data request to [target] and the
    continuation [k] on the decoded body: the shape shared by
    [query_dataverse] and the [try] block of [get_order]. *)
Local Abbreviation relay target k :=
  (token <- Backend.get_access_token cfg net ;;
   resp <- Backend.perform net (GET target (Backend.odata_headers (str_of token)) 20) ;;
   Requests.raise_for_status resp ;;;
   j <- Requests.json_of resp ;;
   k j).

Lemma relay_eq {A : Type} (target : string) (k : json -> M A) (tr : list Call) :
  relay target k tr =
  match Backend.get_access_token cfg net tr with
  | (Raise e, tr1) => (Raise e, tr1)
  | (Return tok, tr1) =>
      let c := Spec.data_call str_of target tok in
      match net c with
      | Failed msg => (Raise (RequestException msg), (tr1 ++ [c])%list)
      | Completed r =>
          match Requests.http_error_msg r with
          | Some msg => (Raise (HTTPError msg (Some r)), (tr1 ++ [c])%list)
          | None =>
              match decoded r with
              | inr msg => (Raise (JSONDecodeError msg), (tr1 ++ [c])%list)
              | inl j => k j (tr1 ++ [c])%list
              end
          end
      end
  end.
Proof.
  rewrite bind_eq.
  destruct (Backend.get_access_token cfg net tr) as [[tok|e] tr1]; [|reflexivity].
  apply call_check_decode_eq.
Qed.

(** When either upstream call is answered with a 4xx or 5xx status, the
    relay raises the [HTTPError] of the status check, carrying that
    response. *)
Lemma relay_rejected {A : Type} (target : string) (k : json -> M A)
    (r : Response) (tr : list Call) :
  Spec.either_call cfg net str_of target (fun c => Spec.rejected_by net c r) ->
  exists msg tr',
    Requests.http_error_msg r = Some msg /\
    relay target k tr = (Raise (HTTPError msg (Some r)), tr').
Proof.
  rewrite relay_eq.
  intros [Hrej | (tok & Htok & Hnet & Hst)].
  - destruct (get_access_token_rejected r tr Hrej) as (msg & E & ->).
    now exists msg, (tr ++ [tc])%list.
  - rewrite (get_access_token_granted tok tr Htok). cbv zeta.
    destruct (http_error_msg_some r Hst) as [msg E].
    exists msg, ((tr ++ [tc]) ++ [Spec.data_call str_of target tok])%list.
    now rewrite Hnet, E.
Qed.

(** When either upstream call fails otherwise, the relay raises that
    failure. *)
Lemma relay_fails {A : Type} (target : string) (k : json -> M A)
    (e : exn) (tr : list Call) :
  Spec.either_call cfg net str_of target (fun c => Spec.fails_otherwise net c e) ->
  exists tr', relay target k tr = (Raise e, tr').
Proof.
  rewrite relay_eq.
  intros [Hf | (tok & Htok & Hf)].
  - rewrite (get_access_token_fails e tr Hf). now eexists.
  - rewrite (get_access_token_granted tok tr Htok). cbv zeta.
    destruct Hf as [(msg & Hnet & ->) | (r & msg & Hnet & Hst & Hdec & ->)];
      rewrite Hnet.
    + now eexists.
    + apply http_error_msg_none in Hst. rewrite Hst, Hdec. now eexists.
Qed.

Lemma query_dataverse_eq (filter_expr select_cols : string) :
  Backend.query_dataverse cfg net str_of filter_expr select_cols =
  relay (Backend.query_endpoint cfg filter_expr select_cols)
        (fun j => PyObj.get j "value" (JArr [])).
Proof. reflexivity. Qed.

Lemma search_try_eq (filter_expr : string) (tr : list Call) :
  search_try filter_expr tr =
  relay (Backend.query_endpoint cfg filter_expr Backend.SELECT_COLS)
        (fun j =>
           records <- PyObj.get j "value" (JArr []) ;;
           count <- PyObj.len records ;;
           ret (jsonify (JObj [("data", records); ("count", JInt count)])))
        tr.
Proof.
  unfold Backend.search_try. rewrite query_dataverse_eq.
  rewrite bind_eq, !relay_eq.
  destruct (Backend.get_access_token cfg net tr) as [[tok|e] tr1]; [|reflexivity].
  cbv zeta. destruct (net _) as [r|msg]; [|reflexivity].
  destruct (Requests.http_error_msg r); [reflexivity|].
  destruct (decoded r); reflexivity.
Qed.

Lemma get_order_try_eq (order_id : string) :
  get_order_try order_id =
  relay (Backend.order_endpoint cfg order_id) (fun j => ret (jsonify j)).
Proof. reflexivity. Qed.

(** What a run of the token fetch can be. *)
Lemma get_access_token_cases (tr : list Call) (out : outcome json) (tr' : list Call) :
  Backend.get_access_token cfg net tr = (out, tr') ->
  tr' = (tr ++ [tc])%list /\
  ((exists tok, Spec.token_granted_by cfg net tok /\ out = Return tok) \/
   (exists r msg, Spec.rejected_by net tc r /\
      Requests.http_error_msg r = Some msg /\ out = Raise (HTTPError msg (Some r))) \/
   (exists e, is_HTTPError e = false /\ out = Raise e)).
Proof.
  rewrite get_access_token_eq.
  destruct (net tc) as [r|msg] eqn:Hnet.
  2:{ intros [= <- <-]. split; [reflexivity|]. right; right. now eexists. }
  destruct (Requests.http_error_msg r) as [msg|] eqn:Hmsg.
  { intros [= <- <-]. split; [reflexivity|]. right; left.
    exists r, msg. repeat split; try assumption.
    destruct (Spec.is_error_status (status_code r)) eqn:E; [reflexivity|].
    apply http_error_msg_none in E. congruence. }
  apply http_error_msg_none in Hmsg.
  destruct (decoded r) as [j|msg] eqn:Hdec.
  2:{ intros [= <- <-]. split; [reflexivity|]. right; right. now eexists. }
  destruct j; simpl;
    try (intros [= <- <-]; split; [reflexivity|]; right; right; now eexists).
  destruct (lookup fields "access_token") as [tok|] eqn:Hl; intros [= <- <-];
    (split; [reflexivity|]).
  - left. exists tok. split; [|reflexivity].
    exists r, (JObj fields). now repeat split.
  - right; right. now eexists.
Qed.

(** What a run of the relay can be: it stops at the token fetch, or the
    token is granted and it stops at the data request, or both calls go
    through and the continuation runs on the decoded body. *)
Lemma relay_cases {A : Type} (target : string) (k : json -> M A)
    (tr : list Call) (out : outcome A) (tr' : list Call) :
  relay target k tr = (out, tr') ->
  (tr' = (tr ++ [tc])%list /\
   ((exists r msg, Spec.rejected_by net tc r /\
       Requests.http_error_msg r = Some msg /\ out = Raise (HTTPError msg (Some r))) \/
    (exists e, is_HTTPError e = false /\ out = Raise e))) \/
  (exists tok, Spec.token_granted_by cfg net tok /\
     let c := Spec.data_call str_of target tok in
     (tr' = (tr ++ [tc; c])%list /\
      ((exists r msg, Spec.rejected_by net c r /\
          Requests.http_error_msg r = Some msg /\ out = Raise (HTTPError msg (Some r))) \/
       (exists e, Spec.fails_otherwise net c e /\ out = Raise e))) \/
     (exists r j, net c = Completed r /\
        Spec.is_error_status (status_code r) = false /\
        decoded r = inl j /\
        k j (tr ++ [tc; c])%list = (out, tr'))).
Proof.
  rewrite relay_eq.
  destruct (Backend.get_access_token cfg net tr) as [o tr1] eqn:Htok.
  apply get_access_token_cases in Htok.
  destruct Htok as [-> [(tok & Hg & ->) | [(r & msg & Hr & Hm & ->) | (e & He & ->)]]].
  2:{ intros [= <- <-]. left. split; [reflexivity|]. left. now exists r, msg. }
  2:{ intros [= <- <-]. left. split; [reflexivity|]. right. now exists e. }
  cbv zeta. rewrite <- app_assoc. simpl.
  intros H. right. exists tok. split; [exact Hg|]. cbv zeta.
  destruct (net (Spec.data_call str_of target tok)) as [r|msg] eqn:Hnet.
  2:{ injection H as <- <-. left. split; [reflexivity|]. right.
      eexists. split; [|reflexivity]. left. now exists msg. }
  destruct (Requests.http_error_msg r) as [msg|] eqn:Hmsg.
  { injection H as <- <-. left. split; [reflexivity|]. left.
    exists r, msg. repeat split; try assumption.
    destruct (Spec.is_error_status (status_code r)) eqn:E; [reflexivity|].
    apply http_error_msg_none in E. congruence. }
  apply http_error_msg_none in Hmsg.
  destruct (decoded r) as [j|msg] eqn:Hdec.
  - right. now exists r, j.
  - injection H as <- <-. left. split; [reflexivity|]. right.
    eexists. split; [|reflexivity]. right. now exists r, msg.
Qed.

Lemma args_get_q_after_by (args : list (string * string)) (v default : string) :
  Backend.args_get (("by", v) :: args) "q" default = Backend.args_get args "q" default.
Proof. reflexivity. Qed.

Lemma on_error_other (e : exn) (tr : list Call) :
  is_HTTPError e = false ->
  on_error e tr = (Return (mkHttp 500 (JObj [("error", JStr (exn_str e))])), tr).
Proof. destruct e; simpl; intros H; try discriminate; reflexivity. Qed.

Lemma on_error_http (msg : string) (r : Response) (tr : list Call) :
  on_error (HTTPError msg (Some r)) tr =
  (Return (mkHttp 502 (JObj [("error", JStr msg); ("detail", JStr (text r))])), tr).
Proof. reflexivity. Qed.

Lemma query_endpoint_top (filter_expr select_cols : string) :
  PyStr.endswith (Backend.query_endpoint cfg filter_expr select_cols) "&$top=50" = true.
Proof.
  unfold Backend.query_endpoint.
  rewrite <- !append_assoc. apply endswith_append.
Qed.

(* ------------------------------------------------------------------ *)
(** ** Properties of the routes *)

(** C9. Every request to [/health] is answered 200 with the body
    [{"status": "ok"}], and the log of outbound calls is left as it was: no
    token fetch and no data fetch is made. *)
Theorem health_ok_without_upstream_call (tr : list Call) :
  Backend.health tr = (Return (mkHttp 200 (JObj [("status", JStr "ok")])), tr).
Proof. reflexivity. Qed.

(** C2. When the parameter [q] is missing, empty or whitespace-only,
    [/api/search] answers 400 with an error message and the log of outbound
    calls is left as it was: neither the token fetch nor the data fetch is
    attempted. *)
Theorem search_blank_q_is_rejected (args : list (string * string)) (tr : list Call) :
  Spec.blank_q args ->
  search args tr =
  (Return (mkHttp 400 (JObj [("error", JStr "Query parameter 'q' is required.")])), tr).
Proof.
  intros Hblank. rewrite search_eq, search_filter_expr_eq. cbv zeta.
  rewrite strip_empty_iff_all_space.
  replace (PyStr.all_space (Backend.args_get args "q" EmptyString)) with true;
    [reflexivity|].
  unfold Spec.blank_q in Hblank. unfold Backend.args_get, dict_get.
  destruct (lookup args "q"); [now rewrite Hblank | reflexivity].
Qed.

(** C1 (amended). For every request whose trimmed [q] is not empty and whose
    [by] (defaulting to [name]) is one of name, external, reference, the
    filter expression handed to the data query is exactly the one clause
    [contains(column,'escaped')], where [column] is the column the
    discriminator is mapped to and [escaped] is the trimmed [q] with every
    single quote doubled, put into the single-quoted template by
    concatenation. *)
Theorem search_filter_is_clause_of_trimmed_query
    (args : list (string * string)) (column : string) (tr : list Call) :
  PyStr.strip (Backend.args_get args "q" EmptyString) <> EmptyString ->
  lookup Spec.discriminator_field (Backend.args_get args "by" "name") = Some column ->
  Backend.search_filter_expr args =
    Some (Spec.contains_clause column
            (Spec.escaped (PyStr.strip (Backend.args_get args "q" EmptyString)))) /\
  search args tr =
    try_except
      (search_try
         (Spec.contains_clause column
            (Spec.escaped (PyStr.strip (Backend.args_get args "q" EmptyString)))))
      on_error tr.
Proof.
  intros Hq Hby.
  assert (E : Backend.search_filter_expr args =
              Some (Spec.contains_clause column
                      (Spec.escaped (PyStr.strip (Backend.args_get args "q" EmptyString))))).
  { rewrite search_filter_expr_eq. cbv zeta.
    apply is_empty_false in Hq. rewrite Hq.
    now rewrite (filter_map_recognised _ _ column). }
  split; [exact E|]. now rewrite search_eq, E.
Qed.

(** C5. When [by] is missing or is none of name, external, reference,
    [/api/search] uses the filter of the [name] discriminator: for a
    non-blank [q] the handler runs its [try] block on the clause over the
    order-number column around the trimmed, escaped [q], so the unrecognised
    value is answered by the data query and its error mapping and by no
    error of its own; and whatever [q] is, the request is handled exactly as
    the same request with [by=name]. *)
Theorem unrecognised_by_falls_back_to_name
    (args : list (string * string)) (tr : list Call) :
  Spec.unrecognised_by args ->
  Backend.search_filter_expr args = Backend.search_filter_expr (("by", "name") :: args) /\
  search args tr = search (("by", "name") :: args) tr /\
  (PyStr.strip (Backend.args_get args "q" EmptyString) <> EmptyString ->
   Backend.search_filter_expr args =
     Some (Spec.contains_clause "cr399_cr1e1_no"
             (Spec.escaped (PyStr.strip (Backend.args_get args "q" EmptyString)))) /\
   search args tr =
     try_except
       (search_try
          (Spec.contains_clause "cr399_cr1e1_no"
             (Spec.escaped (PyStr.strip (Backend.args_get args "q" EmptyString)))))
       on_error tr).
Proof.
  intros Hby.
  assert (Hfall : forall sq,
    dict_get (Backend.filter_map sq) (Backend.args_get args "by" "name")
      (Spec.contains_clause "cr399_cr1e1_no" sq) =
    Spec.contains_clause "cr399_cr1e1_no" sq).
  { intros sq. unfold Backend.args_get at 1, dict_get at 2.
    destruct (lookup args "by") as [b|] eqn:Hb.
    - apply filter_map_unrecognised. now apply Hby.
    - reflexivity. }
  assert (E : Backend.search_filter_expr args =
              Backend.search_filter_expr (("by", "name") :: args)).
  { rewrite !search_filter_expr_eq. cbv zeta.
    rewrite args_get_q_after_by, Hfall. reflexivity. }
  split; [exact E|]. split.
  - now rewrite !search_eq, E.
  - intros Hq.
    assert (Ef : Backend.search_filter_expr args =
                 Some (Spec.contains_clause "cr399_cr1e1_no"
                         (Spec.escaped
                            (PyStr.strip (Backend.args_get args "q" EmptyString))))).
    { rewrite search_filter_expr_eq. cbv zeta.
      apply is_empty_false in Hq. now rewrite Hq, Hfall. }
    split; [exact Ef|]. now rewrite search_eq, Ef.
Qed.

(** The calls [search] adds to the log: none, the token request, or the
    token request and the data request for the filter of the request. *)
Lemma search_log (args : list (string * string)) (tr : list Call) :
  snd (search args tr) = tr \/
  snd (search args tr) = (tr ++ [tc])%list \/
  exists filter_expr tok,
    Backend.search_filter_expr args = Some filter_expr /\
    snd (search args tr) =
      (tr ++ [tc; Spec.data_call str_of
                    (Backend.query_endpoint cfg filter_expr Backend.SELECT_COLS) tok])%list.
Proof.
  rewrite search_eq.
  destruct (Backend.search_filter_expr args) as [f|]; [|now left].
  unfold try_except.
  destruct (search_try f tr) as [out tr1] eqn:E.
  assert (Hlog : snd (match out with
                      | Return a => (Return a, tr1)
                      | Raise e => on_error e tr1
                      end) = tr1).
  { destruct out as [a|e]; [reflexivity|].
    destruct e as [m [r|]| | | | |]; reflexivity. }
  rewrite Hlog.
  rewrite search_try_eq in E. apply relay_cases in E.
  destruct E as [[-> _] | (tok & _ & [[-> _] | (r & j & _ & _ & _ & Hk)])].
  - right; now left.
  - right; right. now exists f, tok.
  - right; right. exists f, tok. split; [reflexivity|].
    destruct j; try (injection Hk as _ <-; reflexivity).
    unfold PyObj.get, bind, ret in Hk.
    destruct (dict_get fields "value" (JArr [])); simpl in Hk;
      injection Hk as _ <-; reflexivity.
Qed.

(** C8 (amended). Every [/api/search] request that passes the validation of
    [q] calls the relay's search operation with the fixed select list, which
    is the comma-joined list of exactly 30 distinct columns (29 separators),
    and a data request that reaches the log carries that list after
    [$select=]. *)
Theorem search_selects_thirty_columns (args : list (string * string)) (tr : list Call) :
  PyStr.strip (Backend.args_get args "q" EmptyString) <> EmptyString ->
  exists filter_expr,
    Backend.search_filter_expr args = Some filter_expr /\
    search args tr =
      try_except
        (records <- Backend.query_dataverse cfg net str_of filter_expr
                      (PyStr.join "," Backend.SELECT_COLS_list) ;;
         count <- PyObj.len records ;;
         ret (jsonify (JObj [("data", records); ("count", JInt count)])))
        on_error tr /\
    List.length Backend.SELECT_COLS_list = 30%nat /\
    NoDup Backend.SELECT_COLS_list /\
    (forall target headers timeout,
        In (GET target headers timeout) (snd (search args tr)) ->
        In (GET target headers timeout) tr \/
        target =
          PyStr.fmt (DATAVERSE_URL cfg) ++ "/api/data/v9.2/" ++ TABLE_NAME cfg
            ++ "?$select=" ++ PyStr.join "," Backend.SELECT_COLS_list
            ++ "&$filter=" ++ filter_expr ++ "&$top=50").
Proof.
  intros Hq.
  destruct (Backend.search_filter_expr args) as [f|] eqn:E.
  2:{ rewrite search_filter_expr_eq in E. cbv zeta in E.
      apply is_empty_false in Hq. rewrite Hq in E. discriminate. }
  exists f. split; [reflexivity|]. split; [|split; [reflexivity|split]].
  - now rewrite search_eq, E.
  - repeat (constructor; [simpl; intuition discriminate|]). constructor.
  - intros target headers timeout Hin.
    destruct (search_log args tr) as [H | [H | (f' & tok & Hf & H)]];
      rewrite H in Hin; clear H.
    + now left.
    + apply in_app_or in Hin. destruct Hin as [Hin | [Hin | []]];
        [now left | discriminate].
    + rewrite E in Hf. injection Hf as <-.
      apply in_app_or in Hin. destruct Hin as [Hin | [Hin | [Hin | []]]];
        [now left | discriminate |].
      right. now injection Hin as <- _ _.
Qed.

(** C7 (amended). For the request [q=O'Brien&by=reference] the filter clause
    sent upstream is [contains(cr399_cr1e1_yourreference,'O''Brien')], the
    quote doubled; and when the token is granted and the data request is
    answered with a body whose [value] holds the two rows [row1], [row2],
    the reply is 200 with the body [{data: [row1, row2], count: 2}]. *)
Theorem search_obrien_by_reference
    (row1 row2 tok : json) (r : Response) (fs : list (string * json)) (tr : list Call) :
  Spec.token_granted_by cfg net tok ->
  net (Spec.data_call str_of
         (Backend.query_endpoint cfg "contains(cr399_cr1e1_yourreference,'O''Brien')"
            Backend.SELECT_COLS) tok) = Completed r ->
  Spec.is_error_status (status_code r) = false ->
  decoded r = inl (JObj fs) ->
  lookup fs "value" = Some (JArr [row1; row2]) ->
  Backend.search_filter_expr [("q", "O'Brien"); ("by", "reference")] =
    Some "contains(cr399_cr1e1_yourreference,'O''Brien')" /\
  search [("q", "O'Brien"); ("by", "reference")] tr =
    (Return (mkHttp 200 (JObj [("data", JArr [row1; row2]); ("count", JInt 2)])),
     (tr ++ [tc; Spec.data_call str_of
                   (Backend.query_endpoint cfg
                      "contains(cr399_cr1e1_yourreference,'O''Brien')"
                      Backend.SELECT_COLS) tok])%list).
Proof.
  intros Htok Hnet Hst Hdec Hval.
  split; [reflexivity|].
  rewrite search_eq.
  change (Backend.search_filter_expr [("q", "O'Brien"); ("by", "reference")])
    with (Some "contains(cr399_cr1e1_yourreference,'O''Brien')").
  unfold try_except. rewrite search_try_eq, relay_eq.
  rewrite (get_access_token_granted tok tr Htok). cbv zeta.
  rewrite Hnet. apply http_error_msg_none in Hst. rewrite Hst, Hdec.
  unfold PyObj.get, bind, ret, dict_get. rewrite Hval. simpl.
  now rewrite <- app_assoc.
Qed.

(** C3 (amended). For [/api/search] (on a request that passes the validation
    of [q]) and for [/api/order/<id>]: when the token request, or the data
    request made once the token is granted, is answered with a 4xx or 5xx
    status, the endpoint answers 502 with a body holding the summary
    message of the status check under [error] and the text of that upstream
    response under [detail]. *)
Theorem upstream_error_status_gives_502 :
  (forall (args : list (string * string)) (filter_expr : string)
          (r : Response) (tr : list Call),
      Backend.search_filter_expr args = Some filter_expr ->
      Spec.either_call cfg net str_of
        (Backend.query_endpoint cfg filter_expr Backend.SELECT_COLS)
        (fun c => Spec.rejected_by net c r) ->
      exists msg,
        Requests.http_error_msg r = Some msg /\
        fst (search args tr) =
          Return (mkHttp 502 (JObj [("error", JStr msg); ("detail", JStr (text r))]))) /\
  (forall (order_id : string) (r : Response) (tr : list Call),
      Spec.either_call cfg net str_of (Backend.order_endpoint cfg order_id)
        (fun c => Spec.rejected_by net c r) ->
      exists msg,
        Requests.http_error_msg r = Some msg /\
        fst (get_order order_id tr) =
          Return (mkHttp 502 (JObj [("error", JStr msg); ("detail", JStr (text r))]))).
Proof.
  split.
  - intros args f r tr Hf Hrej.
    rewrite search_eq, Hf. unfold try_except. rewrite search_try_eq.
    epose proof (@relay_rejected HttpResponse _ _ r tr Hrej)
      as (msg & tr' & Hmsg & E).
    rewrite E. exists msg. now split.
  - intros order_id r tr Hrej.
    unfold Backend.get_order, try_except. rewrite get_order_try_eq.
    epose proof (@relay_rejected HttpResponse _ _ r tr Hrej)
      as (msg & tr' & Hmsg & E).
    rewrite E. exists msg. now split.
Qed.

(** C4. For [/api/search] and [/api/order/<id>]: any failure of the [try]
    block other than the [HTTPError] of an upstream status -- in particular
    a network failure or timeout of either call, or a body of either call
    that is not JSON -- is answered 500 with a body that holds the message
    of the failure under [error] and has no [detail] field. *)
Theorem other_failure_gives_500 :
  (forall (args : list (string * string)) (filter_expr : string)
          (e : exn) (tr : list Call),
      Backend.search_filter_expr args = Some filter_expr ->
      Spec.either_call cfg net str_of
        (Backend.query_endpoint cfg filter_expr Backend.SELECT_COLS)
        (fun c => Spec.fails_otherwise net c e) \/
      (exists tr', search_try filter_expr tr = (Raise e, tr') /\ is_HTTPError e = false) ->
      fst (search args tr) = Return (mkHttp 500 (JObj [("error", JStr (exn_str e))]))) /\
  (forall (order_id : string) (e : exn) (tr : list Call),
      Spec.either_call cfg net str_of (Backend.order_endpoint cfg order_id)
        (fun c => Spec.fails_otherwise net c e) \/
      (exists tr', get_order_try order_id tr = (Raise e, tr') /\ is_HTTPError e = false) ->
      fst (get_order order_id tr) = Return (mkHttp 500 (JObj [("error", JStr (exn_str e))]))) /\
  (forall e : exn, field (JObj [("error", JStr (exn_str e))]) "detail" = None).
Proof.
  assert (Hkind : forall c e, Spec.fails_otherwise net c e -> is_HTTPError e = false).
  { intros c e [(msg & _ & ->) | (r & msg & _ & _ & _ & ->)]; reflexivity. }
  assert (Hany : forall target e,
             Spec.either_call cfg net str_of target
               (fun c => Spec.fails_otherwise net c e) ->
             is_HTTPError e = false).
  { intros target e [H | (tok & _ & H)]; eapply Hkind; exact H. }
  split; [|split].
  - intros args f e tr Hf H.
    rewrite search_eq, Hf. unfold try_except.
    destruct H as [H | (tr' & -> & He)].
    + rewrite search_try_eq.
      epose proof (@relay_fails HttpResponse _ _ e tr H) as (tr' & E).
      rewrite E. now rewrite on_error_other by (eapply Hany; exact H).
    + now rewrite on_error_other.
  - intros order_id e tr H.
    unfold Backend.get_order, try_except.
    destruct H as [H | (tr' & -> & He)].
    + rewrite get_order_try_eq.
      epose proof (@relay_fails HttpResponse _ _ e tr H) as (tr' & E).
      rewrite E. now rewrite on_error_other by (eapply Hany; exact H).
    + now rewrite on_error_other.
  - reflexivity.
Qed.

(** An [HTTPError] leaving the relay is the one the status check raised on
    a logged call, provided the continuation raises none itself. *)
Lemma relay_http_error {A : Type} (target : string) (k : json -> M A)
    (tr : list Call) (msg : string) (response : option Response) (tr' : list Call) :
  (forall j tr1 m ro tr2, k j tr1 <> (Raise (HTTPError m ro), tr2)) ->
  relay target k tr = (Raise (HTTPError msg response), tr') ->
  exists r c, response = Some r /\ In c tr' /\ Spec.rejected_by net c r.
Proof.
  intros Hk H. apply relay_cases in H.
  destruct H as [[-> [(r & m & Hr & _ & E) | (e & He & E)]]
                | (tok & _ & [[-> [(r & m & Hr & _ & E) | (e & He & E)]]
                             | (r & j & _ & _ & _ & E)])].
  - injection E as _ ->. exists r, tc. repeat split; try apply Hr.
    apply in_or_app. right. now left.
  - injection E as <-. discriminate.
  - injection E as _ ->. eexists r, _. repeat split; try apply Hr.
    apply in_or_app. right. right. now left.
  - injection E as <-.
    destruct He as [(m & _ & [=]) | (r & m & _ & _ & _ & [=])].
  - now apply Hk in E.
Qed.

Lemma search_continuation_no_http_error (j : json) (tr1 : list Call)
    (m : string) (ro : option Response) (tr2 : list Call) :
  (records <- PyObj.get j "value" (JArr []) ;;
   count <- PyObj.len records ;;
   ret (jsonify (JObj [("data", records); ("count", JInt count)]))) tr1
  <> (Raise (HTTPError m ro), tr2).
Proof.
  destruct j; try discriminate.
  unfold PyObj.get, bind, ret.
  destruct (dict_get fields "value" (JArr [])); discriminate.
Qed.

(** C10. An [HTTPError] that leaves [get_access_token], [query_dataverse] or
    the [try] block of either endpoint carries the response of a call that
    completed with a 4xx or 5xx status, never [None]; hence the 502 branch,
    which reads the status message and the body text of that response,
    does not fail, and both endpoints always return a reply. *)
Theorem http_error_carries_response :
  (forall tr msg response tr',
      Backend.get_access_token cfg net tr = (Raise (HTTPError msg response), tr') ->
      exists r c, response = Some r /\ In c tr' /\ Spec.rejected_by net c r) /\
  (forall filter_expr select_cols tr msg response tr',
      Backend.query_dataverse cfg net str_of filter_expr select_cols tr
        = (Raise (HTTPError msg response), tr') ->
      exists r c, response = Some r /\ In c tr' /\ Spec.rejected_by net c r) /\
  (forall filter_expr tr msg response tr',
      search_try filter_expr tr = (Raise (HTTPError msg response), tr') ->
      exists r c, response = Some r /\ In c tr' /\ Spec.rejected_by net c r) /\
  (forall order_id tr msg response tr',
      get_order_try order_id tr = (Raise (HTTPError msg response), tr') ->
      exists r c, response = Some r /\ In c tr' /\ Spec.rejected_by net c r) /\
  (forall args tr, exists reply, fst (search args tr) = Return reply) /\
  (forall order_id tr, exists reply, fst (get_order order_id tr) = Return reply).
Proof.
  assert (Htry : forall f tr msg response tr',
             search_try f tr = (Raise (HTTPError msg response), tr') ->
             exists r c, response = Some r /\ In c tr' /\ Spec.rejected_by net c r).
  { intros f tr msg response tr' H. rewrite search_try_eq in H.
    eapply relay_http_error; [|exact H].
    intros j tr1 m ro tr2. apply search_continuation_no_http_error. }
  assert (Hord : forall order_id tr msg response tr',
             get_order_try order_id tr = (Raise (HTTPError msg response), tr') ->
             exists r c, response = Some r /\ In c tr' /\ Spec.rejected_by net c r).
  { intros order_id tr msg response tr' H. rewrite get_order_try_eq in H.
    eapply relay_http_error; [|exact H]. discriminate. }
  assert (Hhandled : forall (body_run : outcome HttpResponse * list Call),
             (forall msg response tr', body_run = (Raise (HTTPError msg response), tr') ->
                exists r c, response = Some r /\ In c tr' /\ Spec.rejected_by net c r) ->
             exists reply,
               fst (match body_run with
                    | (Return a, tr') => (Return a, tr')
                    | (Raise e, tr') => on_error e tr'
                    end) = Return reply).
  { intros [[a|e] tr1] H; [now eexists|].
    destruct e as [m ro| | | | |]; try (now eexists).
    destruct (H m ro tr1 eq_refl) as (r & c & -> & _). now eexists. }
  repeat split.
  - intros tr msg response tr' H.
    apply get_access_token_cases in H.
    destruct H as [-> [(tok & _ & [=]) | [(r & m & Hr & _ & E) | (e & He & E)]]].
    + injection E as _ ->. exists r, tc. repeat split; try apply Hr.
      apply in_or_app. right. now left.
    + injection E as <-. discriminate.
  - intros f cols tr msg response tr' H. rewrite query_dataverse_eq in H.
    eapply relay_http_error; [|exact H].
    intros j tr1 m ro tr2. destruct j; discriminate.
  - exact Htry.
  - exact Hord.
  - intros args tr. rewrite search_eq.
    destruct (Backend.search_filter_expr args) as [f|]; [|now eexists].
    apply Hhandled. apply Htry.
  - intros order_id tr. apply Hhandled. apply Hord.
Qed.

(** C6 (amended). Every [/api/search] request answered 200 has made the
    token request and then one data request; the endpoint string that
    [query_dataverse] builds for it and hands to [requests.get] ends with
    the text [&$top=50]; the [data] of the reply is the [value] entry of the
    upstream JSON object as received, uncut (the empty list when the key is
    absent), and its [count] is [len(data)], the number of elements when
    [data] is an array. *)
Theorem search_success_count_and_top
    (args : list (string * string)) (tr : list Call)
    (reply : HttpResponse) (tr' : list Call) :
  search args tr = (Return reply, tr') ->
  status reply = 200 ->
  exists filter_expr tok r fs n,
    Backend.search_filter_expr args = Some filter_expr /\
    Spec.token_granted_by cfg net tok /\
    tr' = (tr ++ [tc; Spec.data_call str_of
                        (Backend.query_endpoint cfg filter_expr Backend.SELECT_COLS)
                        tok])%list /\
    PyStr.endswith (Backend.query_endpoint cfg filter_expr Backend.SELECT_COLS)
      "&$top=50" = true /\
    net (Spec.data_call str_of
           (Backend.query_endpoint cfg filter_expr Backend.SELECT_COLS) tok)
      = Completed r /\
    decoded r = inl (JObj fs) /\
    body reply = JObj [("data", dict_get fs "value" (JArr [])); ("count", JInt n)] /\
    PyObj.len (dict_get fs "value" (JArr [])) tr' = (Return n, tr') /\
    (forall rows, dict_get fs "value" (JArr []) = JArr rows ->
                  n = Z.of_nat (List.length rows)).
Proof.
  rewrite search_eq.
  destruct (Backend.search_filter_expr args) as [f|] eqn:Hf.
  2:{ intros [= <- <-]. discriminate. }
  unfold try_except.
  destruct (search_try f tr) as [[a|e] tr1] eqn:E.
  2:{ destruct e as [m [r|]| | | | |]; simpl; intros [= <- <-]; discriminate. }
  intros [= -> ->] _.
  rewrite search_try_eq in E. apply relay_cases in E.
  destruct E as [[_ [(r & m & _ & _ & [=]) | (e & _ & [=])]]
                | (tok & Htok & [[_ [(r & m & _ & _ & [=]) | (e & _ & [=])]]
                                | (r & j & Hnet & _ & Hdec & Hk)])].
  destruct j; try discriminate.
  unfold PyObj.get, bind, ret in Hk.
  exists f, tok, r, fields.
  destruct (dict_get fields "value" (JArr [])) as [| | | |s|items|fs'] eqn:Hd;
    simpl in Hk; try discriminate; injection Hk as <- <-;
    eexists; repeat split; try eassumption; try apply query_endpoint_top;
    intros rows [=]; subst; reflexivity.
Qed.

(* ------------------------------------------------------------------ *)
(** ** Further facts about the runs *)

Lemma search_filter_expr_none_iff (args : list (string * string)) :
  Backend.search_filter_expr args = None <-> Spec.blank_q args.
Proof.
  rewrite search_filter_expr_eq. cbv zeta. rewrite strip_empty_iff_all_space.
  unfold Spec.blank_q, Backend.args_get, dict_get.
  destruct (lookup args "q") as [v|]; simpl.
  - destruct (PyStr.all_space v); split; intros H; congruence.
  - split; trivial.
Qed.

(** An [HTTPError] leaving the relay carries the response and the message
    of the status check that raised it. *)
Lemma relay_raise_http {A : Type} (target : string) (k : json -> M A)
    (tr : list Call) (msg : string) (response : option Response) (tr' : list Call) :
  (forall j tr1 m ro tr2, k j tr1 <> (Raise (HTTPError m ro), tr2)) ->
  relay target k tr = (Raise (HTTPError msg response), tr') ->
  exists r c, response = Some r /\ In c tr' /\ Spec.rejected_by net c r /\
              Requests.http_error_msg r = Some msg.
Proof.
  intros Hk H. apply relay_cases in H.
  destruct H as [[-> [(r & m & Hr & Hm & E) | (e & He & E)]]
                | (tok & _ & [[-> [(r & m & Hr & Hm & E) | (e & He & E)]]
                             | (r & j & _ & _ & _ & E)])].
  - injection E as <- ->. exists r, tc. repeat split; try apply Hr; try exact Hm.
    apply in_or_app. right. now left.
  - injection E as <-. discriminate.
  - injection E as <- ->. eexists r, _. repeat split; try apply Hr; try exact Hm.
    apply in_or_app. right. right. now left.
  - injection E as <-.
    destruct He as [(m & _ & [=]) | (r & m & _ & _ & _ & [=])].
  - now apply Hk in E.
Qed.

(** The three ways a [try] block guarded by the two [except] clauses ends,
    for a block whose [HTTPError]s come from the status check. *)
Lemma try_on_error_cases (block : M HttpResponse) (tr : list Call) :
  (forall msg response tr',
      block tr = (Raise (HTTPError msg response), tr') ->
      exists r c, response = Some r /\ In c tr' /\ Spec.rejected_by net c r /\
                  Requests.http_error_msg r = Some msg) ->
  (exists a tr',
      block tr = (Return a, tr') /\
      try_except block on_error tr = (Return a, tr')) \/
  (exists msg r c tr',
      block tr = (Raise (HTTPError msg (Some r)), tr') /\
      In c tr' /\ Spec.rejected_by net c r /\
      Requests.http_error_msg r = Some msg /\
      try_except block on_error tr =
        (Return (mkHttp 502 (JObj [("error", JStr msg); ("detail", JStr (text r))])), tr')) \/
  (exists e tr',
      block tr = (Raise e, tr') /\ is_HTTPError e = false /\
      try_except block on_error tr =
        (Return (mkHttp 500 (JObj [("error", JStr (exn_str e))])), tr')).
Proof.
  intros H. unfold try_except.
  destruct (block tr) as [[a|e] tr1] eqn:E.
  - left. now exists a, tr1.
  - destruct (is_HTTPError e) eqn:He.
    + destruct e as [m ro| | | | |]; try discriminate.
      destruct (H m ro tr1 eq_refl) as (r & c & -> & Hin & Hrej & Hm).
      right; left. exists m, r, c, tr1.
      split; [reflexivity|]. split; [exact Hin|]. split; [exact Hrej|].
      split; [exact Hm | reflexivity].
    + right; right. exists e, tr1.
      split; [reflexivity|]. split; [exact He|]. now apply on_error_other.
Qed.

Lemma search_try_raise_http (filter_expr : string) (tr : list Call)
    (msg : string) (response : option Response) (tr' : list Call) :
  search_try filter_expr tr = (Raise (HTTPError msg response), tr') ->
  exists r c, response = Some r /\ In c tr' /\ Spec.rejected_by net c r /\
              Requests.http_error_msg r = Some msg.
Proof.
  intros H. rewrite search_try_eq in H.
  eapply relay_raise_http; [|exact H].
  intros j tr1 m ro tr2. apply search_continuation_no_http_error.
Qed.

Lemma get_order_try_raise_http (order_id : string) (tr : list Call)
    (msg : string) (response : option Response) (tr' : list Call) :
  get_order_try order_id tr = (Raise (HTTPError msg response), tr') ->
  exists r c, response = Some r /\ In c tr' /\ Spec.rejected_by net c r /\
              Requests.http_error_msg r = Some msg.
Proof.
  intros H. rewrite get_order_try_eq in H.
  eapply relay_raise_http; [|exact H]. discriminate.
Qed.

(** What the [try] block of [search] has done when it returns. *)
Lemma search_try_return (filter_expr : string) (tr : list Call)
    (a : HttpResponse) (tr' : list Call) :
  search_try filter_expr tr = (Return a, tr') ->
  exists tok r fs n,
    Spec.token_granted_by cfg net tok /\
    tr' = (tr ++ [tc; Spec.data_call str_of
                        (Backend.query_endpoint cfg filter_expr Backend.SELECT_COLS)
                        tok])%list /\
    net (Spec.data_call str_of
           (Backend.query_endpoint cfg filter_expr Backend.SELECT_COLS) tok)
      = Completed r /\
    Spec.is_error_status (status_code r) = false /\
    decoded r = inl (JObj fs) /\
    PyObj.len (dict_get fs "value" (JArr [])) tr' = (Return n, tr') /\
    a = mkHttp 200 (JObj [("data", dict_get fs "value" (JArr [])); ("count", JInt n)]).
Proof.
  intros E. rewrite search_try_eq in E. apply relay_cases in E.
  destruct E as [[_ [(r & m & _ & _ & [=]) | (e & _ & [=])]]
                | (tok & Htok & [[_ [(r & m & _ & _ & [=]) | (e & _ & [=])]]
                                | (r & j & Hnet & Hst & Hdec & Hk)])].
  destruct j; try discriminate.
  unfold PyObj.get, bind, ret in Hk.
  exists tok, r, fields.
  destruct (dict_get fields "value" (JArr [])) as [| | | |s|items|fs'] eqn:Hd;
    simpl in Hk; try discriminate; injection Hk as <- <-;
    eexists; repeat split; eassumption.
Qed.

(** What a run of [get_order]'s [try] block has done when it returns. *)
Lemma get_order_try_return (order_id : string) (tr : list Call)
    (a : HttpResponse) (tr' : list Call) :
  get_order_try order_id tr = (Return a, tr') ->
  exists tok r j,
    Spec.token_granted_by cfg net tok /\
    tr' = (tr ++ [tc; Spec.data_call str_of (Backend.order_endpoint cfg order_id) tok])%list /\
    net (Spec.data_call str_of (Backend.order_endpoint cfg order_id) tok) = Completed r /\
    Spec.is_error_status (status_code r) = false /\
    decoded r = inl j /\
    a = mkHttp 200 j.
Proof.
  intros E. rewrite get_order_try_eq in E. apply relay_cases in E.
  destruct E as [[_ [(r & m & _ & _ & [=]) | (e & _ & [=])]]
                | (tok & Htok & [[_ [(r & m & _ & _ & [=]) | (e & _ & [=])]]
                                | (r & j & Hnet & Hst & Hdec & Hk)])].
  injection Hk as <- <-. exists tok, r, j. now repeat split.
Qed.

(** The log after a run of the relay: the token request, then the data
    request if and only if the token was granted. *)
Lemma relay_log {A : Type} (target : string) (k : json -> M A) (tr : list Call) :
  (forall j tr1, snd (k j tr1) = tr1) ->
  snd (relay target k tr) = (tr ++ [tc])%list \/
  exists tok, Spec.token_granted_by cfg net tok /\
    snd (relay target k tr) = (tr ++ [tc; Spec.data_call str_of target tok])%list.
Proof.
  intros Hk.
  destruct (relay target k tr) as [out tr'] eqn:E. apply relay_cases in E.
  destruct E as [[-> _] | (tok & Htok & [[-> _] | (r & j & _ & _ & _ & E)])].
  - now left.
  - right. now exists tok.
  - right. exists tok. split; [exact Htok|].
    specialize (Hk j (tr ++ [tc; Spec.data_call str_of target tok])%list).
    rewrite E in Hk. exact Hk.
Qed.

Lemma on_error_log (e : exn) (tr : list Call) : snd (on_error e tr) = tr.
Proof. destruct e as [m [r|]| | | | |]; reflexivity. Qed.

Lemma try_except_log (block : M HttpResponse) (tr : list Call) :
  snd (try_except block on_error tr) = snd (block tr).
Proof.
  unfold try_except. destruct (block tr) as [[a|e] tr1]; [reflexivity|].
  apply on_error_log.
Qed.

(** The entry of [filter_map] picked for [by], the [name] entry standing
    in for a missing one, is the clause over the column of [by], the
    order-number column standing in likewise. *)
Lemma filter_map_get (sq b : string) :
  dict_get (Backend.filter_map sq) b (Spec.contains_clause "cr399_cr1e1_no" sq) =
  Spec.contains_clause (dict_get Spec.discriminator_field b "cr399_cr1e1_no") sq.
Proof.
  unfold dict_get, Spec.discriminator_field, Backend.filter_map.
  cbn [lookup].
  destruct (String.eqb "name" b); [reflexivity|].
  destruct (String.eqb "external" b); [reflexivity|].
  destruct (String.eqb "reference" b); reflexivity.
Qed.

Lemma discriminator_column_in (b : string) :
  In (dict_get Spec.discriminator_field b "cr399_cr1e1_no") Spec.filter_columns.
Proof.
  unfold dict_get, Spec.discriminator_field, Spec.filter_columns.
  cbn [lookup].
  destruct (String.eqb "name" b); [now left|].
  destruct (String.eqb "external" b); [right; now left|].
  destruct (String.eqb "reference" b); [right; right; now left | now left].
Qed.

Lemma search_filter_expr_some (args : list (string * string)) (filter_expr : string) :
  Backend.search_filter_expr args = Some filter_expr ->
  filter_expr =
    Spec.contains_clause
      (dict_get Spec.discriminator_field (Backend.args_get args "by" "name") "cr399_cr1e1_no")
      (Spec.escaped (PyStr.strip (Backend.args_get args "q" EmptyString))).
Proof.
  rewrite search_filter_expr_eq. cbv zeta.
  destruct (PyStr.is_empty _); [discriminate|].
  rewrite filter_map_get. now intros [= <-].
Qed.

(* ------------------------------------------------------------------ *)
(** ** Further properties of the routes *)

(** X1. Whitespace around [q] is ignored by [/api/search]: two requests
    with the same [by] whose [q] differ only by leading and trailing
    whitespace are handled alike, reply and outbound calls included. *)
Theorem search_ignores_padding_of_q
    (args1 args2 : list (string * string)) (a b : string) (tr : list Call) :
  PyStr.all_space a = true ->
  PyStr.all_space b = true ->
  Backend.args_get args1 "q" EmptyString = a ++ Backend.args_get args2 "q" EmptyString ++ b ->
  Backend.args_get args1 "by" "name" = Backend.args_get args2 "by" "name" ->
  search args1 tr = search args2 tr.
Proof.
  intros Ha Hb Hq Hby.
  rewrite !search_eq, !search_filter_expr_eq. cbv zeta.
  rewrite Hq, Hby, (strip_padded _ _ _ Ha Hb). reflexivity.
Qed.

(** X2. [/api/search] answers 400 exactly when [q] is missing, empty or
    whitespace-only: no failure of the upstream is ever reported as 400. *)
Theorem search_answers_400_iff_blank_q (args : list (string * string)) (tr : list Call) :
  Spec.blank_q args <->
  exists reply, fst (search args tr) = Return reply /\ status reply = 400.
Proof.
  rewrite search_eq. split.
  - intros H. apply search_filter_expr_none_iff in H. rewrite H.
    now exists Spec.bad_request.
  - intros (reply & Hrun & Hst).
    destruct (Backend.search_filter_expr args) as [f|] eqn:Hf;
      [|now apply search_filter_expr_none_iff].
    exfalso.
    destruct (try_on_error_cases (search_try f) tr (search_try_raise_http f tr))
      as [(a & tr' & Ha & E) | [(m & r & c & tr' & _ & _ & _ & _ & E) | (e & tr' & _ & _ & E)]];
      rewrite E in Hrun; injection Hrun as <-; try discriminate.
    apply search_try_return in Ha.
    destruct Ha as (tok & r & fs & n & _ & _ & _ & _ & _ & _ & ->). discriminate.
Qed.

(** X3. Both data endpoints always reply, and only with the status codes
    of their source: [/api/search] with 200, 400, 500 or 502,
    [/api/order/<id>] with 200, 500 or 502. *)
Theorem replies_use_the_mapped_status_codes :
  (forall args tr, exists reply,
      fst (search args tr) = Return reply /\ In (status reply) [200; 400; 500; 502]) /\
  (forall order_id tr, exists reply,
      fst (get_order order_id tr) = Return reply /\ In (status reply) [200; 500; 502]).
Proof.
  split.
  - intros args tr. rewrite search_eq.
    destruct (Backend.search_filter_expr args) as [f|].
    2:{ exists Spec.bad_request. split; [reflexivity|]. right; now left. }
    destruct (try_on_error_cases (search_try f) tr (search_try_raise_http f tr))
      as [(a & tr' & Ha & E) | [(m & r & c & tr' & _ & _ & _ & _ & E) | (e & tr' & _ & _ & E)]];
      rewrite E; eexists; (split; [reflexivity|]).
    + apply search_try_return in Ha.
      destruct Ha as (tok & r & fs & n & _ & _ & _ & _ & _ & _ & ->). now left.
    + right; right; right; now left.
    + right; right; now left.
  - intros order_id tr. unfold Backend.get_order.
    destruct (try_on_error_cases (get_order_try order_id) tr
                (get_order_try_raise_http order_id tr))
      as [(a & tr' & Ha & E) | [(m & r & c & tr' & _ & _ & _ & _ & E) | (e & tr' & _ & _ & E)]];
      rewrite E; eexists; (split; [reflexivity|]).
    + apply get_order_try_return in Ha.
      destruct Ha as (tok & r & j & _ & _ & _ & _ & _ & ->). now left.
    + right; right; now left.
    + right; now left.
Qed.

(** X4. A 502 reply of either data endpoint always reports a real upstream
    rejection: one of the calls in the log completed with a 4xx or 5xx
    status, and the body holds the message of the status check under
    [error] and the text of that very response under [detail]. *)
Theorem reply_502_reports_an_upstream_status :
  (forall args tr reply tr',
      search args tr = (Return reply, tr') ->
      status reply = 502 ->
      exists r c msg,
        In c tr' /\ Spec.rejected_by net c r /\
        Requests.http_error_msg r = Some msg /\
        body reply = JObj [("error", JStr msg); ("detail", JStr (text r))]) /\
  (forall order_id tr reply tr',
      get_order order_id tr = (Return reply, tr') ->
      status reply = 502 ->
      exists r c msg,
        In c tr' /\ Spec.rejected_by net c r /\
        Requests.http_error_msg r = Some msg /\
        body reply = JObj [("error", JStr msg); ("detail", JStr (text r))]).
Proof.
  split.
  - intros args tr reply tr0. rewrite search_eq.
    destruct (Backend.search_filter_expr args) as [f|].
    2:{ intros [= <- <-]. discriminate. }
    destruct (try_on_error_cases (search_try f) tr (search_try_raise_http f tr))
      as [(a & tr' & Ha & E) | [(m & r & c & tr' & _ & Hin & Hrej & Hm & E) | (e & tr' & _ & _ & E)]];
      rewrite E; intros [= <- <-]; try discriminate.
    + apply search_try_return in Ha.
      destruct Ha as (tok & r & fs & n & _ & _ & _ & _ & _ & _ & ->). discriminate.
    + intros _. now exists r, c, m.
  - intros order_id tr reply tr0. unfold Backend.get_order.
    destruct (try_on_error_cases (get_order_try order_id) tr
                (get_order_try_raise_http order_id tr))
      as [(a & tr' & Ha & E) | [(m & r & c & tr' & _ & Hin & Hrej & Hm & E) | (e & tr' & _ & _ & E)]];
      rewrite E; intros [= <- <-]; try discriminate.
    + apply get_order_try_return in Ha.
      destruct Ha as (tok & r & j & _ & _ & _ & _ & _ & ->). discriminate.
    + intros _. now exists r, c, m.
Qed.

Lemma relay_log_granted {A : Type} (target : string) (k : json -> M A)
    (tok : json) (tr : list Call) :
  (forall j tr1, snd (k j tr1) = tr1) ->
  Spec.token_granted_by cfg net tok ->
  snd (relay target k tr) = (tr ++ [tc; Spec.data_call str_of target tok])%list.
Proof.
  intros Hk Htok. rewrite relay_eq, (get_access_token_granted tok tr Htok).
  cbv zeta. rewrite <- app_assoc. simpl.
  destruct (net _) as [r|msg]; [|reflexivity].
  destruct (Requests.http_error_msg r); [reflexivity|].
  destruct (decoded r); [apply Hk | reflexivity].
Qed.

Lemma search_continuation_log (j : json) (tr1 : list Call) :
  snd ((records <- PyObj.get j "value" (JArr []) ;;
        count <- PyObj.len records ;;
        ret (jsonify (JObj [("data", records); ("count", JInt count)]))) tr1) = tr1.
Proof.
  destruct j; try reflexivity.
  unfold PyObj.get, bind, ret.
  destruct (dict_get fields "value" (JArr [])); reflexivity.
Qed.

Lemma search_try_log_eq (filter_expr : string) (tr : list Call) :
  snd (search_try filter_expr tr) =
  snd (relay (Backend.query_endpoint cfg filter_expr Backend.SELECT_COLS)
         (fun j =>
            records <- PyObj.get j "value" (JArr []) ;;
            count <- PyObj.len records ;;
            ret (jsonify (JObj [("data", records); ("count", JInt count)])))
         tr).
Proof. now rewrite search_try_eq. Qed.

(** X5. The outbound calls of a request. A [/api/search] request with a
    blank [q] makes none. Every other [/api/search] request and every
    [/api/order/<id>] request makes the token request first, and then the
    one data request, carrying the granted token, exactly when the token
    is granted; no request makes a third call or a data request without a
    token. *)
Theorem outbound_calls_of_a_request :
  (forall args tr, Spec.blank_q args -> snd (search args tr) = tr) /\
  (forall args filter_expr tr tok,
      Backend.search_filter_expr args = Some filter_expr ->
      Spec.token_granted_by cfg net tok ->
      snd (search args tr) =
        (tr ++ [tc; Spec.data_call str_of
                      (Backend.query_endpoint cfg filter_expr Backend.SELECT_COLS)
                      tok])%list) /\
  (forall args tr,
      ~ Spec.blank_q args ->
      (forall tok, ~ Spec.token_granted_by cfg net tok) ->
      snd (search args tr) = (tr ++ [tc])%list) /\
  (forall order_id tr tok,
      Spec.token_granted_by cfg net tok ->
      snd (get_order order_id tr) =
        (tr ++ [tc; Spec.data_call str_of (Backend.order_endpoint cfg order_id) tok])%list) /\
  (forall order_id tr,
      (forall tok, ~ Spec.token_granted_by cfg net tok) ->
      snd (get_order order_id tr) = (tr ++ [tc])%list).
Proof.
  repeat split.
  - intros args tr H. apply search_filter_expr_none_iff in H.
    now rewrite search_eq, H.
  - intros args f tr tok Hf Htok.
    rewrite search_eq, Hf, try_except_log, search_try_log_eq.
    apply relay_log_granted; [apply search_continuation_log | exact Htok].
  - intros args tr Hq Hno.
    rewrite search_eq.
    destruct (Backend.search_filter_expr args) as [f|] eqn:Hf.
    2:{ now apply search_filter_expr_none_iff in Hf. }
    rewrite try_except_log, search_try_log_eq.
    destruct (relay_log (Backend.query_endpoint cfg f Backend.SELECT_COLS) _ tr
                search_continuation_log) as [E | (tok & Htok & _)];
      [exact E | now apply Hno in Htok].
  - intros order_id tr tok Htok.
    unfold Backend.get_order. rewrite try_except_log, get_order_try_eq.
    now apply relay_log_granted.
  - intros order_id tr Hno.
    unfold Backend.get_order. rewrite try_except_log, get_order_try_eq.
    destruct (relay_log (Backend.order_endpoint cfg order_id)
                (fun j => ret (jsonify j)) tr (fun _ _ => eq_refl))
      as [E | (tok & Htok & _)];
      [exact E | now apply Hno in Htok].
Qed.

(** X6. [/api/order/<id>] answers 200 exactly when the token is granted and
    the data request completes with a status the check lets through and a
    JSON body; the reply is then that decoded body itself, whatever JSON
    value it is, with nothing unwrapped or added. *)
Theorem get_order_answers_200_iff
    (order_id : string) (tr : list Call) (reply : HttpResponse) :
  (fst (get_order order_id tr) = Return reply /\ status reply = 200) <->
  (exists tok r j,
      Spec.token_granted_by cfg net tok /\
      net (Spec.data_call str_of (Backend.order_endpoint cfg order_id) tok) = Completed r /\
      Spec.is_error_status (status_code r) = false /\
      decoded r = inl j /\
      reply = mkHttp 200 j).
Proof.
  unfold Backend.get_order. split.
  - intros [Hrun Hst].
    destruct (try_on_error_cases (get_order_try order_id) tr
                (get_order_try_raise_http order_id tr))
      as [(a & tr' & Ha & E) | [(m & r & c & tr' & _ & _ & _ & _ & E) | (e & tr' & _ & _ & E)]];
      rewrite E in Hrun; injection Hrun as <-; try discriminate.
    apply get_order_try_return in Ha.
    destruct Ha as (tok & r & j & Htok & _ & Hnet & Hs & Hdec & ->).
    now exists tok, r, j.
  - intros (tok & r & j & Htok & Hnet & Hs & Hdec & ->).
    split; [|reflexivity].
    unfold try_except. rewrite get_order_try_eq, relay_eq.
    rewrite (get_access_token_granted tok tr Htok). cbv zeta.
    apply http_error_msg_none in Hs. now rewrite Hnet, Hs, Hdec.
Qed.

(** X7. When both upstream calls go through and the data body is a JSON
    object, [/api/search] relays its rows as they are: a [value] array of
    any length comes back under [data], in order, with [count] its length,
    and a body without [value] comes back as an empty [data] with [count]
    0. *)
Theorem search_relays_the_upstream_rows
    (args : list (string * string)) (filter_expr : string) (tok : json)
    (r : Response) (fs : list (string * json)) (tr : list Call) :
  Backend.search_filter_expr args = Some filter_expr ->
  Spec.token_granted_by cfg net tok ->
  net (Spec.data_call str_of
         (Backend.query_endpoint cfg filter_expr Backend.SELECT_COLS) tok) = Completed r ->
  Spec.is_error_status (status_code r) = false ->
  decoded r = inl (JObj fs) ->
  (forall items,
      lookup fs "value" = Some (JArr items) ->
      fst (search args tr) =
        Return (mkHttp 200 (JObj [("data", JArr items);
                                  ("count", JInt (Z.of_nat (List.length items)))]))) /\
  (lookup fs "value" = None ->
   fst (search args tr) =
     Return (mkHttp 200 (JObj [("data", JArr []); ("count", JInt 0)]))).
Proof.
  intros Hf Htok Hnet Hs Hdec.
  rewrite search_eq, Hf. unfold try_except.
  rewrite search_try_eq, relay_eq, (get_access_token_granted tok tr Htok).
  cbv zeta. apply http_error_msg_none in Hs. rewrite Hnet, Hs, Hdec.
  unfold PyObj.get, bind, ret, dict_get.
  split.
  - intros items Hv. now rewrite Hv.
  - intros Hv. now rewrite Hv.
Qed.

(** X8. A data body [/api/search] cannot use is reported as 500, not
    relayed: a JSON body that is not an object fails at [.get], and a
    [value] that is [null], a boolean or a number fails at [len]; the
    reply holds the message of that failure and no [detail]. *)
Theorem search_unusable_body_gives_500
    (args : list (string * string)) (filter_expr : string) (tok : json)
    (r : Response) (j : json) (tr : list Call) :
  Backend.search_filter_expr args = Some filter_expr ->
  Spec.token_granted_by cfg net tok ->
  net (Spec.data_call str_of
         (Backend.query_endpoint cfg filter_expr Backend.SELECT_COLS) tok) = Completed r ->
  Spec.is_error_status (status_code r) = false ->
  decoded r = inl j ->
  (Spec.is_object j = false ->
   fst (search args tr) =
     Return (mkHttp 500
               (JObj [("error",
                       JStr ("'" ++ type_name j ++ "' object has no attribute 'get'"))]))) /\
  (forall fs v,
      j = JObj fs -> lookup fs "value" = Some v -> Spec.sized v = false ->
      fst (search args tr) =
        Return (mkHttp 500
                  (JObj [("error",
                          JStr ("object of type '" ++ type_name v ++ "' has no len()"))]))).
Proof.
  intros Hf Htok Hnet Hs Hdec.
  rewrite search_eq, Hf. unfold try_except.
  rewrite search_try_eq, relay_eq, (get_access_token_granted tok tr Htok).
  cbv zeta. apply http_error_msg_none in Hs. rewrite Hnet, Hs, Hdec.
  split.
  - intros Hobj. destruct j; try discriminate; reflexivity.
  - intros fs v -> Hv Hsz.
    unfold PyObj.get, bind, ret, dict_get. rewrite Hv.
    destruct v; try discriminate; reflexivity.
Qed.

(** X9. A token answer that passes the status check and is a JSON object
    without [access_token] stops the request there: both data endpoints
    reply 500 with the message of the [KeyError], ['access_token'], and the
    data request is not made. *)
Theorem token_answer_without_access_token_gives_500
    (r : Response) (fs : list (string * json)) :
  net tc = Completed r ->
  Spec.is_error_status (status_code r) = false ->
  decoded r = inl (JObj fs) ->
  lookup fs "access_token" = None ->
  (forall args filter_expr tr,
      Backend.search_filter_expr args = Some filter_expr ->
      search args tr =
        (Return (mkHttp 500 (JObj [("error", JStr "'access_token'")])),
         (tr ++ [tc])%list)) /\
  (forall order_id tr,
      get_order order_id tr =
        (Return (mkHttp 500 (JObj [("error", JStr "'access_token'")])),
         (tr ++ [tc])%list)).
Proof.
  intros Hnet Hs Hdec Hkey.
  assert (Htok : forall tr,
             Backend.get_access_token cfg net tr =
             (Raise (KeyError "access_token"), (tr ++ [tc])%list)).
  { intros tr. rewrite get_access_token_eq, Hnet.
    apply http_error_msg_none in Hs. rewrite Hs, Hdec. simpl. now rewrite Hkey. }
  split.
  - intros args f tr Hf. rewrite search_eq, Hf. unfold try_except.
    now rewrite search_try_eq, relay_eq, Htok.
  - intros order_id tr. unfold Backend.get_order, try_except.
    now rewrite get_order_try_eq, relay_eq, Htok.
Qed.

Lemma search_validated (args : list (string * string)) :
  PyStr.strip (Backend.args_get args "q" EmptyString) <> EmptyString ->
  Backend.search_filter_expr args =
    Some (Spec.contains_clause
            (dict_get Spec.discriminator_field (Backend.args_get args "by" "name")
               "cr399_cr1e1_no")
            (Spec.escaped (PyStr.strip (Backend.args_get args "q" EmptyString)))).
Proof.
  intros Hq. rewrite search_filter_expr_eq. cbv zeta.
  apply is_empty_false in Hq. now rewrite Hq, filter_map_get.
Qed.

(** The log of a validated [search] whose token is granted. *)
Lemma search_granted_log (args : list (string * string)) (filter_expr : string)
    (tok : json) (tr : list Call) :
  Backend.search_filter_expr args = Some filter_expr ->
  Spec.token_granted_by cfg net tok ->
  snd (search args tr) =
    (tr ++ [tc; Spec.data_call str_of
                  (Backend.query_endpoint cfg filter_expr Backend.SELECT_COLS) tok])%list.
Proof.
  intros Hf Htok.
  rewrite search_eq, Hf, try_except_log, search_try_log_eq.
  apply relay_log_granted; [apply search_continuation_log | exact Htok].
Qed.

Lemma query_endpoint_injective (f1 f2 select_cols : string) :
  Backend.query_endpoint cfg f1 select_cols = Backend.query_endpoint cfg f2 select_cols ->
  f1 = f2.
Proof.
  unfold Backend.query_endpoint. intros H.
  do 6 apply append_inj_l in H. now apply append_inj_r in H.
Qed.

(** X10. Whatever [q] and [by] are, a [/api/search] request that passes
    validation runs its [try] block on one of three fixed templates:
    [contains(] over the order-number, external-document or
    customer-reference column, around the trimmed [q] with its quotes
    doubled; when the token is granted, the endpoint string of the logged
    data request is built from that very expression. The value of [by]
    never enters the expression, and inside the quoted literal every single
    quote is followed by its pair. *)
Theorem search_filter_is_a_fixed_template
    (args : list (string * string)) (tr : list Call) :
  PyStr.strip (Backend.args_get args "q" EmptyString) <> EmptyString ->
  exists column,
    In column Spec.filter_columns /\
    search args tr =
      try_except
        (search_try
           ("contains(" ++ column ++ ",'"
              ++ PyStr.replace (PyStr.strip (Backend.args_get args "q" EmptyString)) "'" "''"
              ++ "')"))
        on_error tr /\
    (forall tok,
        Spec.token_granted_by cfg net tok ->
        snd (search args tr) =
          (tr ++ [tc;
                  Spec.data_call str_of
                    (Backend.query_endpoint cfg
                       ("contains(" ++ column ++ ",'"
                          ++ PyStr.replace
                               (PyStr.strip (Backend.args_get args "q" EmptyString)) "'" "''"
                          ++ "')")
                       Backend.SELECT_COLS)
                    tok])%list) /\
    Spec.quotes_doubled
      (PyStr.replace (PyStr.strip (Backend.args_get args "q" EmptyString)) "'" "''") = true.
Proof.
  intros Hq. pose proof (search_validated args Hq) as Hf.
  exists (dict_get Spec.discriminator_field (Backend.args_get args "by" "name")
            "cr399_cr1e1_no").
  split; [apply discriminator_column_in|]. split; [|split].
  - now rewrite search_eq, Hf.
  - intros tok Htok. exact (search_granted_log args _ tok tr Hf Htok).
  - apply replace_quote_doubled.
Qed.

(** X11. Doubling the quotes loses nothing: when the token is granted, two
    [/api/search] requests with the same [by] that pass validation log the
    same outbound calls only if their trimmed [q] are the same string; two
    different trimmed queries never share the endpoint string of the data
    request. *)
Theorem same_data_request_only_for_same_trimmed_q
    (args1 args2 : list (string * string)) (tok : json) (tr : list Call) :
  Spec.token_granted_by cfg net tok ->
  PyStr.strip (Backend.args_get args1 "q" EmptyString) <> EmptyString ->
  PyStr.strip (Backend.args_get args2 "q" EmptyString) <> EmptyString ->
  Backend.args_get args1 "by" "name" = Backend.args_get args2 "by" "name" ->
  snd (search args1 tr) = snd (search args2 tr) ->
  PyStr.strip (Backend.args_get args1 "q" EmptyString) =
  PyStr.strip (Backend.args_get args2 "q" EmptyString).
Proof.
  intros Htok H1 H2 Hby Hlog.
  rewrite (search_granted_log args1 _ tok tr (search_validated args1 H1) Htok),
          (search_granted_log args2 _ tok tr (search_validated args2 H2) Htok) in Hlog.
  apply app_inv_head in Hlog. unfold Spec.data_call in Hlog.
  injection Hlog as Hurl. apply query_endpoint_injective in Hurl.
  rewrite Hby in Hurl. unfold Spec.contains_clause in Hurl.
  do 3 apply append_inj_l in Hurl. apply append_inj_r in Hurl.
  now apply replace_quote_injective in Hurl.
Qed.

(** X12. How a client reads a reply of [/api/search]: the body has an
    [error] field exactly when the status is not 200, and a [detail] field
    exactly when the status is 502. *)
Theorem search_reply_fields_follow_the_status (args : list (string * string)) (tr : list Call) :
  exists reply,
    fst (search args tr) = Return reply /\
    (field (body reply) "error" = None <-> status reply = 200) /\
    (field (body reply) "detail" = None <-> status reply <> 502).
Proof.
  rewrite search_eq.
  destruct (Backend.search_filter_expr args) as [f|].
  2:{ exists Spec.bad_request. split; [reflexivity|]. split; split; simpl; try discriminate; trivial. }
  destruct (try_on_error_cases (search_try f) tr (search_try_raise_http f tr))
    as [(a & tr' & Ha & E) | [(m & r & c & tr' & _ & _ & _ & _ & E) | (e & tr' & _ & _ & E)]];
    rewrite E; eexists; (split; [reflexivity|]).
  - apply search_try_return in Ha.
    destruct Ha as (tok & r & fs & n & _ & _ & _ & _ & _ & _ & ->).
    split; split; simpl; try discriminate; trivial.
  - split; split; simpl; try discriminate; intros H; now elim H.
  - split; split; simpl; try discriminate; trivial.
Qed.

(** X13. Single quotes are the only characters [/api/search] rewrites: when
    the trimmed [q] is not empty and holds no single quote, it enters the
    filter expression the [try] block runs on character for character,
    unencoded, whatever else it contains; when the token is granted, the
    endpoint string of the logged data request is built from that very
    expression. *)
Theorem search_filter_keeps_a_quote_free_query
    (args : list (string * string)) (tr : list Call) :
  PyStr.strip (Backend.args_get args "q" EmptyString) <> EmptyString ->
  PyStr.contains (PyStr.strip (Backend.args_get args "q" EmptyString)) "'" = false ->
  exists column,
    In column Spec.filter_columns /\
    search args tr =
      try_except
        (search_try
           ("contains(" ++ column ++ ",'"
              ++ PyStr.strip (Backend.args_get args "q" EmptyString) ++ "')"))
        on_error tr /\
    (forall tok,
        Spec.token_granted_by cfg net tok ->
        snd (search args tr) =
          (tr ++ [tc;
                  Spec.data_call str_of
                    (Backend.query_endpoint cfg
                       ("contains(" ++ column ++ ",'"
                          ++ PyStr.strip (Backend.args_get args "q" EmptyString) ++ "')")
                       Backend.SELECT_COLS)
                    tok])%list).
Proof.
  intros Hne Hq. pose proof (search_validated args Hne) as Hf.
  unfold Spec.escaped in Hf. rewrite (replace_without_quote _ Hq) in Hf.
  exists (dict_get Spec.discriminator_field (Backend.args_get args "by" "name")
            "cr399_cr1e1_no").
  split; [apply discriminator_column_in|]. split.
  - now rewrite search_eq, Hf.
  - intros tok Htok. exact (search_granted_log args _ tok tr Hf Htok).
Qed.

End Routes.

(* ------------------------------------------------------------------ *)
(** ** Concrete runs *)

Section Runs.

Import Demo.

Lemma demo_token_granted (data : NetReply) :
  Spec.token_granted_by cfg (upstream token_granted data) (JStr "tok-1").
Proof.
  eexists _, _. repeat split.
Defined.

Lemma search_blank_q_is_rejected_witness :
  Spec.blank_q [("q", "   "); ("by", "name")] /\
  Backend.search cfg net_two_rows str_of [("q", "   "); ("by", "name")] [] =
  (Return (mkHttp 400 (JObj [("error", JStr "Query parameter 'q' is required.")])), []).
Proof.
  split; [reflexivity|].
  apply search_blank_q_is_rejected. reflexivity.
Defined.

Lemma search_filter_is_clause_of_trimmed_query_witness :
  Backend.search_filter_expr [("q", " O'Brien "); ("by", "external")] =
    Some "contains(cr399_cr1e1_externaldocumentno,'O''Brien')" /\
  Backend.search cfg net_two_rows str_of [("q", " O'Brien "); ("by", "external")] [] =
    try_except
      (Backend.search_try cfg net_two_rows str_of
         "contains(cr399_cr1e1_externaldocumentno,'O''Brien')")
      Backend.on_error [].
Proof.
  apply (search_filter_is_clause_of_trimmed_query cfg net_two_rows str_of
           [("q", " O'Brien "); ("by", "external")] "cr399_cr1e1_externaldocumentno" []).
  - discriminate.
  - reflexivity.
Defined.

(** C1, as stated, fails on a query with outer whitespace: for [q = " a"]
    (not empty) and [by = name] the filter handed on is built from the
    trimmed query ["a"], not from [q] with its quotes doubled; and for the
    whitespace-only [q = " "] no filter is built at all. *)
Lemma search_filter_of_padded_query :
  " a" <> EmptyString /\
  lookup Spec.discriminator_field "name" = Some "cr399_cr1e1_no" /\
  Backend.search_filter_expr [("q", " a"); ("by", "name")] =
    Some "contains(cr399_cr1e1_no,'a')" /\
  Backend.search_filter_expr [("q", " a"); ("by", "name")] <>
    Some (Spec.contains_clause "cr399_cr1e1_no" (Spec.escaped " a")) /\
  Backend.search_filter_expr [("q", " "); ("by", "name")] = None.
Proof.
  repeat split; try reflexivity; discriminate.
Qed.

Lemma unrecognised_by_falls_back_to_name_witness :
  Spec.unrecognised_by [("q", "1001"); ("by", "customer")] /\
  Backend.search_filter_expr [("q", "1001"); ("by", "customer")] =
    Some "contains(cr399_cr1e1_no,'1001')" /\
  Backend.search cfg net_two_rows str_of [("q", "1001"); ("by", "customer")] [] =
    try_except
      (Backend.search_try cfg net_two_rows str_of "contains(cr399_cr1e1_no,'1001')")
      Backend.on_error [] /\
  Backend.search cfg net_two_rows str_of [("q", "1001"); ("by", "customer")] [] =
  Backend.search cfg net_two_rows str_of [("by", "name"); ("q", "1001"); ("by", "customer")] [].
Proof.
  assert (H : Spec.unrecognised_by [("q", "1001"); ("by", "customer")]).
  { intros b [= <-]. reflexivity. }
  destruct (unrecognised_by_falls_back_to_name cfg net_two_rows str_of
              [("q", "1001"); ("by", "customer")] [] H) as (_ & Hsame & Hname).
  assert (Hq : PyStr.strip (Backend.args_get [("q", "1001"); ("by", "customer")]
                              "q" EmptyString) <> EmptyString) by discriminate.
  destruct (Hname Hq) as [Hf Hrun].
  split; [exact H|]. split; [exact Hf|]. split; [exact Hrun | exact Hsame].
Defined.

Lemma search_selects_thirty_columns_witness :
  PyStr.strip (Backend.args_get obrien_args "q" EmptyString) <> EmptyString /\
  exists filter_expr,
    Backend.search_filter_expr obrien_args = Some filter_expr /\
    List.length Backend.SELECT_COLS_list = 30%nat /\
    (forall target headers timeout,
        In (GET target headers timeout)
           (snd (Backend.search cfg net_two_rows str_of obrien_args [])) ->
        target =
          PyStr.fmt (DATAVERSE_URL cfg) ++ "/api/data/v9.2/" ++ TABLE_NAME cfg
            ++ "?$select=" ++ PyStr.join "," Backend.SELECT_COLS_list
            ++ "&$filter=" ++ filter_expr ++ "&$top=50").
Proof.
  assert (Hq : PyStr.strip (Backend.args_get obrien_args "q" EmptyString) <> EmptyString)
    by discriminate.
  split; [exact Hq|].
  destruct (search_selects_thirty_columns cfg net_two_rows str_of obrien_args [] Hq)
    as (f & Hf & _ & Hlen & _ & Hlog).
  exists f. split; [exact Hf|]. split; [exact Hlen|].
  intros target headers timeout Hin.
  destruct (Hlog target headers timeout Hin) as [[] | E]. exact E.
Defined.

(** C8, as stated, fails: the select list has 30 columns, not 29. *)
Lemma select_list_is_not_29_columns :
  List.length Backend.SELECT_COLS_list = 30%nat /\
  List.length Backend.SELECT_COLS_list <> 29%nat.
Proof. split; [reflexivity | discriminate]. Qed.

Lemma search_obrien_by_reference_witness :
  Backend.search cfg net_two_rows str_of obrien_args [] =
  (Return (mkHttp 200 (JObj [("data", JArr [row1; row2]); ("count", JInt 2)])),
   [Backend.token_call cfg;
    Spec.data_call str_of (Backend.query_endpoint cfg obrien_filter Backend.SELECT_COLS)
      (JStr "tok-1")]).
Proof.
  refine (proj2 (search_obrien_by_reference cfg net_two_rows str_of
                   row1 row2 (JStr "tok-1") _ _ []
                   (demo_token_granted _) eq_refl eq_refl eq_refl eq_refl)).
Defined.

(** C7, as stated, fails on the column name: the clause built for
    [q=O'Brien&by=reference] names [cr399_cr1e1_yourreference], and the
    clause [contains(cr1e1_yourreference,'O''Brien')] of the claim occurs
    nowhere in the URL of the data request. *)
Lemma obrien_clause_names_cr399_column :
  Backend.search_filter_expr obrien_args = Some obrien_filter /\
  Backend.search_filter_expr obrien_args <>
    Some "contains(cr1e1_yourreference,'O''Brien')" /\
  PyStr.contains (Backend.query_endpoint cfg obrien_filter Backend.SELECT_COLS)
    "contains(cr1e1_yourreference,'O''Brien')" = false.
Proof.
  repeat split; try reflexivity; discriminate.
Qed.

Lemma upstream_error_status_gives_502_witness :
  Spec.either_call cfg net_table_missing str_of
    (Backend.query_endpoint cfg obrien_filter Backend.SELECT_COLS)
    (fun c => Spec.rejected_by net_table_missing c table_missing) /\
  Spec.either_call cfg net_token_denied str_of (Backend.order_endpoint cfg "42")
    (fun c => Spec.rejected_by net_token_denied c token_denied) /\
  (exists msg,
      Requests.http_error_msg table_missing = Some msg /\
      fst (Backend.search cfg net_table_missing str_of obrien_args []) =
        Return (mkHttp 502 (JObj [("error", JStr msg);
                                  ("detail", JStr (text table_missing))]))) /\
  (exists msg,
      Requests.http_error_msg token_denied = Some msg /\
      fst (Backend.get_order cfg net_token_denied str_of "42" []) =
        Return (mkHttp 502 (JObj [("error", JStr msg);
                                  ("detail", JStr (text token_denied))]))).
Proof.
  assert (H1 : Spec.either_call cfg net_table_missing str_of
                 (Backend.query_endpoint cfg obrien_filter Backend.SELECT_COLS)
                 (fun c => Spec.rejected_by net_table_missing c table_missing)).
  { right. exists (JStr "tok-1"). split; [apply demo_token_granted|]. now split. }
  assert (H2 : Spec.either_call cfg net_token_denied str_of (Backend.order_endpoint cfg "42")
                 (fun c => Spec.rejected_by net_token_denied c token_denied)).
  { left. now split. }
  split; [exact H1|]. split; [exact H2|]. split.
  - exact (proj1 (upstream_error_status_gives_502 cfg net_table_missing str_of)
             obrien_args obrien_filter table_missing [] eq_refl H1).
  - exact (proj2 (upstream_error_status_gives_502 cfg net_token_denied str_of)
             "42" token_denied [] H2).
Defined.

(** C3, as stated, fails on a status outside 2xx that is neither 4xx nor
    5xx: the token request completes with 304 and an empty body, the status
    check lets it through, decoding the body fails, and both endpoints
    answer 500 without [detail], not 502. *)
Lemma not_modified_token_reply_gives_500 :
  net_token_not_modified (Backend.token_call cfg) = Completed token_not_modified /\
  Spec.is_2xx (status_code token_not_modified) = false /\
  fst (Backend.search cfg net_token_not_modified str_of obrien_args []) =
    Return (mkHttp 500 (JObj [("error", JStr "Expecting value: line 1 column 1 (char 0)")])) /\
  fst (Backend.get_order cfg net_token_not_modified str_of "42" []) =
    Return (mkHttp 500 (JObj [("error", JStr "Expecting value: line 1 column 1 (char 0)")])).
Proof. repeat split. Qed.

Lemma other_failure_gives_500_witness :
  Spec.either_call cfg net_read_timeout str_of
    (Backend.query_endpoint cfg obrien_filter Backend.SELECT_COLS)
    (fun c => Spec.fails_otherwise net_read_timeout c
                (RequestException
                   "HTTPSConnectionPool(host='contoso.crm.dynamics.com', port=443): Read timed out. (read timeout=20)")) /\
  Spec.either_call cfg (upstream token_granted html_page) str_of
    (Backend.order_endpoint cfg "42")
    (fun c => Spec.fails_otherwise (upstream token_granted html_page) c
                (JSONDecodeError "Expecting value: line 1 column 1 (char 0)")) /\
  fst (Backend.search cfg net_read_timeout str_of obrien_args []) =
    Return (mkHttp 500
              (JObj [("error",
                      JStr "HTTPSConnectionPool(host='contoso.crm.dynamics.com', port=443): Read timed out. (read timeout=20)")])) /\
  fst (Backend.get_order cfg (upstream token_granted html_page) str_of "42" []) =
    Return (mkHttp 500 (JObj [("error", JStr "Expecting value: line 1 column 1 (char 0)")])).
Proof.
  assert (H1 : Spec.either_call cfg net_read_timeout str_of
                 (Backend.query_endpoint cfg obrien_filter Backend.SELECT_COLS)
                 (fun c => Spec.fails_otherwise net_read_timeout c
                   (RequestException
                      "HTTPSConnectionPool(host='contoso.crm.dynamics.com', port=443): Read timed out. (read timeout=20)"))).
  { right. exists (JStr "tok-1"). split; [apply demo_token_granted|].
    left. eexists. now split. }
  assert (H2 : Spec.either_call cfg (upstream token_granted html_page) str_of
                 (Backend.order_endpoint cfg "42")
                 (fun c => Spec.fails_otherwise (upstream token_granted html_page) c
                   (JSONDecodeError "Expecting value: line 1 column 1 (char 0)"))).
  { right. exists (JStr "tok-1"). split; [apply demo_token_granted|].
    right. eexists _, _. now repeat split. }
  split; [exact H1|]. split; [exact H2|]. split.
  - exact (proj1 (other_failure_gives_500 cfg net_read_timeout str_of)
             obrien_args obrien_filter _ [] eq_refl (or_introl H1)).
  - exact (proj1 (proj2 (other_failure_gives_500 cfg (upstream token_granted html_page) str_of))
             "42" _ [] (or_introl H2)).
Defined.

Lemma http_error_carries_response_witness :
  Backend.query_dataverse cfg net_table_missing str_of obrien_filter Backend.SELECT_COLS [] =
    (Raise (HTTPError
              "404 Client Error: Not Found for url: https://contoso.crm.dynamics.com/api/data/v9.2/cr399_tables"
              (Some table_missing)),
     [Backend.token_call cfg;
      Spec.data_call str_of (Backend.query_endpoint cfg obrien_filter Backend.SELECT_COLS)
        (JStr "tok-1")]) /\
  (exists r c,
      Some table_missing = Some r /\
      In c [Backend.token_call cfg;
            Spec.data_call str_of
              (Backend.query_endpoint cfg obrien_filter Backend.SELECT_COLS)
              (JStr "tok-1")] /\
      Spec.rejected_by net_table_missing c r) /\
  (exists reply,
      fst (Backend.search cfg net_table_missing str_of obrien_args []) = Return reply).
Proof.
  assert (H : Backend.query_dataverse cfg net_table_missing str_of obrien_filter
                Backend.SELECT_COLS [] =
              (Raise (HTTPError
                        "404 Client Error: Not Found for url: https://contoso.crm.dynamics.com/api/data/v9.2/cr399_tables"
                        (Some table_missing)),
               [Backend.token_call cfg;
                Spec.data_call str_of
                  (Backend.query_endpoint cfg obrien_filter Backend.SELECT_COLS)
                  (JStr "tok-1")])) by reflexivity.
  destruct (http_error_carries_response cfg net_table_missing str_of)
    as (_ & Hq & _ & _ & Hs & _).
  split; [exact H|]. split.
  - exact (Hq _ _ _ _ _ _ H).
  - apply Hs.
Defined.

Lemma search_success_count_and_top_witness :
  Backend.search cfg net_two_rows str_of obrien_args [] =
    (Return (mkHttp 200 (JObj [("data", JArr [row1; row2]); ("count", JInt 2)])),
     [Backend.token_call cfg;
      Spec.data_call str_of (Backend.query_endpoint cfg obrien_filter Backend.SELECT_COLS)
        (JStr "tok-1")]) /\
  exists filter_expr fs n,
    Backend.search_filter_expr obrien_args = Some filter_expr /\
    PyStr.endswith (Backend.query_endpoint cfg filter_expr Backend.SELECT_COLS)
      "&$top=50" = true /\
    JObj [("data", JArr [row1; row2]); ("count", JInt 2)] =
      JObj [("data", dict_get fs "value" (JArr [])); ("count", JInt n)] /\
    (forall items, dict_get fs "value" (JArr []) = JArr items ->
                   n = Z.of_nat (List.length items)).
Proof.
  assert (H : Backend.search cfg net_two_rows str_of obrien_args [] =
    (Return (mkHttp 200 (JObj [("data", JArr [row1; row2]); ("count", JInt 2)])),
     [Backend.token_call cfg;
      Spec.data_call str_of (Backend.query_endpoint cfg obrien_filter Backend.SELECT_COLS)
        (JStr "tok-1")])) by reflexivity.
  split; [exact H|].
  destruct (search_success_count_and_top cfg net_two_rows str_of obrien_args [] _ _ H eq_refl)
    as (f & tok & r & fs & n & Hf & _ & _ & Htop & _ & _ & Hbody & _ & Hn).
  exists f, fs, n. repeat split; assumption.
Defined.

(** C6, as stated, fails on the bound: the relay does not cut what it is
    sent, so an upstream that answers with 51 rows gets a 200 reply whose
    [data] has 51 elements (and [count] 51), although the endpoint string
    built for the data request ends with [&$top=50]. *)
Lemma search_relays_51_rows :
  exists items,
    fst (Backend.search cfg net_51_rows str_of obrien_args []) =
      Return (mkHttp 200 (JObj [("data", JArr items); ("count", JInt 51)])) /\
    List.length items = 51%nat /\
    (50 < List.length items)%nat /\
    PyStr.endswith (Backend.query_endpoint cfg obrien_filter Backend.SELECT_COLS)
      "&$top=50" = true.
Proof.
  exists (List.repeat (JObj []) 51).
  repeat split. apply Nat.ltb_lt. reflexivity.
Qed.

(* ------------------------------------------------------------------ *)
(** ** Concrete runs for the further properties *)

Lemma demo_token_never_granted (tok : json) :
  ~ Spec.token_granted_by cfg net_token_denied tok.
Proof.
  intros (r & j & Hnet & Hs & _). injection Hnet as <-. discriminate.
Qed.

Lemma search_ignores_padding_of_q_witness :
  Backend.search cfg net_two_rows str_of [("q", "  1001 "); ("by", "external")] [] =
  Backend.search cfg net_two_rows str_of [("by", "external"); ("q", "1001")] [].
Proof.
  apply (search_ignores_padding_of_q cfg net_two_rows str_of
           [("q", "  1001 "); ("by", "external")] [("by", "external"); ("q", "1001")]
           "  " " " []); reflexivity.
Defined.

Lemma search_answers_400_iff_blank_q_witness :
  Spec.blank_q [("by", "name")] /\
  exists reply,
    fst (Backend.search cfg net_two_rows str_of [("by", "name")] []) = Return reply /\
    status reply = 400.
Proof.
  assert (H : Spec.blank_q [("by", "name")]) by exact I.
  split; [exact H|].
  exact (proj1 (search_answers_400_iff_blank_q cfg net_two_rows str_of [("by", "name")] []) H).
Defined.

Lemma reply_502_reports_an_upstream_status_witness :
  exists r c msg,
    In c [Backend.token_call cfg;
          Spec.data_call str_of
            (Backend.query_endpoint cfg obrien_filter Backend.SELECT_COLS) (JStr "tok-1")] /\
    Spec.rejected_by net_table_missing c r /\
    Requests.http_error_msg r = Some msg /\
    JObj [("error", JStr not_found_msg); ("detail", JStr (text table_missing))] =
    JObj [("error", JStr msg); ("detail", JStr (text r))].
Proof.
  exact (proj1 (reply_502_reports_an_upstream_status cfg net_table_missing str_of)
           obrien_args []
           (mkHttp 502 (JObj [("error", JStr not_found_msg);
                              ("detail", JStr (text table_missing))]))
           [Backend.token_call cfg;
            Spec.data_call str_of
              (Backend.query_endpoint cfg obrien_filter Backend.SELECT_COLS) (JStr "tok-1")]
           eq_refl eq_refl).
Defined.

Lemma outbound_calls_of_a_request_witness :
  snd (Backend.search cfg net_two_rows str_of [("q", " ")] []) = [] /\
  snd (Backend.search cfg net_two_rows str_of obrien_args []) =
    [Backend.token_call cfg;
     Spec.data_call str_of (Backend.query_endpoint cfg obrien_filter Backend.SELECT_COLS)
       (JStr "tok-1")] /\
  snd (Backend.search cfg net_token_denied str_of obrien_args []) = [Backend.token_call cfg] /\
  snd (Backend.get_order cfg net_one_order str_of "42" []) =
    [Backend.token_call cfg;
     Spec.data_call str_of (Backend.order_endpoint cfg "42") (JStr "tok-1")] /\
  snd (Backend.get_order cfg net_token_denied str_of "42" []) = [Backend.token_call cfg].
Proof.
  destruct (outbound_calls_of_a_request cfg net_two_rows str_of) as (H1 & H2 & _).
  destruct (outbound_calls_of_a_request cfg net_token_denied str_of) as (_ & _ & H3 & _ & H5).
  destruct (outbound_calls_of_a_request cfg net_one_order str_of) as (_ & _ & _ & H4 & _).
  split; [|split; [|split; [|split]]].
  - apply H1. reflexivity.
  - exact (H2 obrien_args obrien_filter [] (JStr "tok-1") eq_refl (demo_token_granted _)).
  - apply (H3 obrien_args []); [|exact demo_token_never_granted].
    intros H. discriminate H.
  - exact (H4 "42" [] (JStr "tok-1") (demo_token_granted _)).
  - exact (H5 "42" [] demo_token_never_granted).
Defined.

Lemma get_order_answers_200_iff_witness :
  fst (Backend.get_order cfg net_one_order str_of "42" []) = Return (mkHttp 200 row1) /\
  status (mkHttp 200 row1) = 200.
Proof.
  apply (proj2 (get_order_answers_200_iff cfg net_one_order str_of "42" [] (mkHttp 200 row1))).
  eexists (JStr "tok-1"), _, row1.
  split; [apply demo_token_granted|]. repeat split.
Defined.

Lemma search_relays_the_upstream_rows_witness :
  fst (Backend.search cfg net_51_rows str_of obrien_args []) =
    Return (mkHttp 200 (JObj [("data", JArr (List.repeat (JObj []) 51));
                              ("count", JInt 51)])) /\
  fst (Backend.search cfg net_no_value str_of obrien_args []) =
    Return (mkHttp 200 (JObj [("data", JArr []); ("count", JInt 0)])).
Proof.
  split.
  - exact (proj1 (search_relays_the_upstream_rows cfg net_51_rows str_of
                    obrien_args obrien_filter (JStr "tok-1") _ _ []
                    eq_refl (demo_token_granted _) eq_refl eq_refl eq_refl)
             (List.repeat (JObj []) 51) eq_refl).
  - exact (proj2 (search_relays_the_upstream_rows cfg net_no_value str_of
                    obrien_args obrien_filter (JStr "tok-1") _ _ []
                    eq_refl (demo_token_granted _) eq_refl eq_refl eq_refl)
             eq_refl).
Defined.

Lemma search_unusable_body_gives_500_witness :
  fst (Backend.search cfg net_array_body str_of obrien_args []) =
    Return (mkHttp 500 (JObj [("error", JStr "'list' object has no attribute 'get'")])) /\
  fst (Backend.search cfg net_null_value str_of obrien_args []) =
    Return (mkHttp 500 (JObj [("error", JStr "object of type 'NoneType' has no len()")])).
Proof.
  split.
  - exact (proj1 (search_unusable_body_gives_500 cfg net_array_body str_of
                    obrien_args obrien_filter (JStr "tok-1") _ (JArr [row1]) []
                    eq_refl (demo_token_granted _) eq_refl eq_refl eq_refl)
             eq_refl).
  - exact (proj2 (search_unusable_body_gives_500 cfg net_null_value str_of
                    obrien_args obrien_filter (JStr "tok-1") _ _ []
                    eq_refl (demo_token_granted _) eq_refl eq_refl eq_refl)
             [("value", JNull)] JNull eq_refl eq_refl eq_refl).
Defined.

Lemma token_answer_without_access_token_gives_500_witness :
  Backend.search cfg net_token_without_key str_of obrien_args [] =
    (Return (mkHttp 500 (JObj [("error", JStr "'access_token'")])),
     [Backend.token_call cfg]) /\
  Backend.get_order cfg net_token_without_key str_of "42" [] =
    (Return (mkHttp 500 (JObj [("error", JStr "'access_token'")])),
     [Backend.token_call cfg]).
Proof.
  destruct (token_answer_without_access_token_gives_500 cfg net_token_without_key str_of
              _ [("token_type", JStr "Bearer")] eq_refl eq_refl eq_refl eq_refl)
    as [Hs Ho].
  split.
  - exact (Hs obrien_args obrien_filter [] eq_refl).
  - exact (Ho "42" []).
Defined.

Lemma search_filter_is_a_fixed_template_witness :
  exists column,
    In column Spec.filter_columns /\
    Backend.search cfg net_two_rows str_of [("q", " it's "); ("by", "') or ('")] [] =
      try_except
        (Backend.search_try cfg net_two_rows str_of
           ("contains(" ++ column ++ ",'" ++ "it''s" ++ "')"))
        Backend.on_error [] /\
    snd (Backend.search cfg net_two_rows str_of [("q", " it's "); ("by", "') or ('")] []) =
      [Backend.token_call cfg;
       Spec.data_call str_of
         (Backend.query_endpoint cfg ("contains(" ++ column ++ ",'" ++ "it''s" ++ "')")
            Backend.SELECT_COLS)
         (JStr "tok-1")] /\
    Spec.quotes_doubled "it''s" = true.
Proof.
  assert (Hq : PyStr.strip (Backend.args_get [("q", " it's "); ("by", "') or ('")]
                              "q" EmptyString) <> EmptyString) by discriminate.
  destruct (search_filter_is_a_fixed_template cfg net_two_rows str_of
              [("q", " it's "); ("by", "') or ('")] [] Hq)
    as (column & Hin & Hrun & Hlog & Hquotes).
  exists column. split; [exact Hin|]. split; [exact Hrun|]. split; [|exact Hquotes].
  exact (Hlog (JStr "tok-1") (demo_token_granted _)).
Defined.

Lemma same_data_request_only_for_same_trimmed_q_witness :
  PyStr.strip (Backend.args_get [("q", " it's ")] "q" EmptyString) =
  PyStr.strip (Backend.args_get [("q", "it's"); ("by", "name")] "q" EmptyString).
Proof.
  refine (same_data_request_only_for_same_trimmed_q cfg net_two_rows str_of
            [("q", " it's ")] [("q", "it's"); ("by", "name")] (JStr "tok-1") []
            (demo_token_granted _) _ _ eq_refl eq_refl); discriminate.
Defined.

Lemma search_filter_keeps_a_quote_free_query_witness :
  exists column,
    In column Spec.filter_columns /\
    Backend.search cfg net_two_rows str_of [("q", "A&B #7"); ("by", "reference")] [] =
      try_except
        (Backend.search_try cfg net_two_rows str_of
           ("contains(" ++ column ++ ",'" ++ "A&B #7" ++ "')"))
        Backend.on_error [] /\
    snd (Backend.search cfg net_two_rows str_of [("q", "A&B #7"); ("by", "reference")] []) =
      [Backend.token_call cfg;
       Spec.data_call str_of
         (Backend.query_endpoint cfg ("contains(" ++ column ++ ",'" ++ "A&B #7" ++ "')")
            Backend.SELECT_COLS)
         (JStr "tok-1")].
Proof.
  assert (Hq : PyStr.strip (Backend.args_get [("q", "A&B #7"); ("by", "reference")]
                              "q" EmptyString) <> EmptyString) by discriminate.
  destruct (search_filter_keeps_a_quote_free_query cfg net_two_rows str_of
              [("q", "A&B #7"); ("by", "reference")] [] Hq eq_refl)
    as (column & Hin & Hrun & Hlog).
  exists column. split; [exact Hin|]. split; [exact Hrun|].
  exact (Hlog (JStr "tok-1") (demo_token_granted _)).
Defined.

End Runs.
